(** * NFT-scan: the IPFS-backed NFT record service (app/main.py)

    A shallow embedding of the FastAPI handlers of [app/main.py] and the
    properties of its record store, listing order, QR targets and error
    mapping.

    - Python values read from or written to JSON are the type [json].
    - The handlers run in a state-and-exception monad over the [world]
      (the two data directories and the log of calls made to the IPFS
      client).  A raised exception keeps the state reached so far, as in
      Python.
    - Library code the handlers call (the [json] codec, [repr], the
      comparison of numbers and lists, pydantic's lax coercions, the QR
      encoder) is the class [Runtime]; what the outside world answers
      during one request (the uuid drawn, whether the IPFS node accepts the
      connection, what [add] returns) is the record [env].
    - The file system takes file names of at most 255 bytes that hold no
      slash and no NUL; a name it refuses makes [exists] and [open] raise.
      Apart from that it is reliable: reading a file that exists and
      writing a file under a name it takes succeed.  Where a newly created
      file stands in the enumeration of its folder is the operating
      system's choice.  Output to the console is left out. *)

From Stdlib Require Import ZArith String List Sorting.Sorted Floats.PrimFloat.
From stdpp Require Import gmap strings list sorting.

#[local] Set Warnings "-register-all".
#[local] Open Scope Z_scope.

(** ** Python values *)

(** What [json.load] produces: [None], [bool], [int], [float], [str],
    [list] and [dict] with string keys.  A [dict] is a finite map: Python's
    [==] on dicts ignores insertion order, as equality of [gmap] does.
    A [str] is its UTF-8 byte string, whose byte-wise lexicographic order is
    the code-point order Python compares strings by. *)
Inductive json : Type :=
| JNull
| JBool (b : bool)
| JInt (n : Z)
| JFloat (f : PrimFloat.float)
| JStr (s : string)
| JArr (l : list json)
| JObj (d : gmap string json).

(** Python truthiness, as [if x:] and [not x] test it. *)
Definition truthy (v : json) : bool :=
  match v with
  | JNull => false
  | JBool b => b
  | JInt n => negb (n =? 0)
  | JFloat f => negb (PrimFloat.eqb f PrimFloat.zero)
  | JStr s => negb (String.eqb s "")
  | JArr l => match l with [] => false | _ => true end
  | JObj d => match map_to_list d with [] => false | _ => true end
  end.

(** [d.get(k)]: the value, or [None]. *)
Definition dict_get (k : string) (d : gmap string json) : json :=
  default JNull (d !! k).

(** An optional Python string as a value: [None] or the [str]. *)
Definition of_opt_str (o : option string) : json :=
  match o with Some s => JStr s | None => JNull end.

(** ** Exceptions *)

(** The exceptions the handlers can meet.  All are subclasses of
    [Exception]; [HTTPException] is FastAPI's, which carries the response
    status. *)
Inductive exn : Type :=
| HTTPException (status_code : Z) (detail : string)
| JSONDecodeError
| ValidationError
| TypeError
| AttributeError
| FileNotFoundError
| IPFSError
| QRCodeError
| OSError
| ValueError.

(** ** Library code *)

(** The library functions the handlers call, as the running interpreter
    provides them. *)
Class Runtime : Type := {
  (** [json.loads]; [None] stands for raising [JSONDecodeError]. *)
  json_loads : string -> option json;
  (** [json.dumps]. *)
  json_dumps : json -> string;
  (** [repr] of a value. *)
  py_repr : json -> string;
  (** [a < b] on two numbers ([bool], [int], [float]). *)
  py_num_lt : json -> json -> bool;
  (** [a < b] on two lists; [None] stands for raising [TypeError]. *)
  py_list_lt : list json -> list json -> option bool;
  (** pydantic on a value that is neither a [str] nor [None], given for a
      [str] field (version 1 turns numbers into text, version 2 refuses). *)
  pyd_str_lax : json -> option string;
  (** pydantic on a value that is neither a [dict] nor [None], given for a
      [Dict] field. *)
  pyd_dict_lax : json -> option (gmap string json);
  (** [qrcode.make(text)] saved as PNG bytes; [None] stands for raising. *)
  qrcode_png : string -> option string;
  (** [str(e)] of an exception. *)
  exn_str : exn -> string
}.

(** ** The state-and-exception monad *)

Inductive outcome (A : Type) : Type :=
| Return (a : A)
| Raise (e : exn).
Arguments Return {A} a.
Arguments Raise {A} e.

Definition M (S A : Type) : Type := S -> outcome A * S.

Definition ret {S A : Type} (a : A) : M S A := fun s => (Return a, s).

Definition bind {S A B : Type} (m : M S A) (k : A -> M S B) : M S B :=
  fun s => match m s with
           | (Return a, s') => k a s'
           | (Raise e, s') => (Raise e, s')
           end.

Definition raise {S A : Type} (e : exn) : M S A := fun s => (Raise e, s).

(** [try: body / except Exception as e: handler e]. *)
Definition try_except {S A : Type} (body : M S A) (handler : exn -> M S A) : M S A :=
  fun s => match body s with
           | (Return a, s') => (Return a, s')
           | (Raise e, s') => handler e s'
           end.

(** [try: body / finally: final]: [final] runs on both exits; an exception
    of [final] replaces the outcome of [body]. *)
Definition try_finally {S A : Type} (body : M S A) (final : M S unit) : M S A :=
  fun s => let '(r, s') := body s in
           match final s' with
           | (Return _, s'') => (r, s'')
           | (Raise e, s'') => (Raise e, s'')
           end.

Definition get_state {S : Type} : M S S := fun s => (Return s, s).
Definition modify_state {S : Type} (f : S -> S) : M S unit := fun s => (Return tt, f s).

Declare Scope py_scope.
Delimit Scope py_scope with py.
Notation "x <- c ;; k" := (bind c (fun x => k))
  (at level 100, c at next level, right associativity) : py_scope.
Notation "c ;;; k" := (bind c (fun _ => k))
  (at level 100, right associativity) : py_scope.
#[local] Open Scope py_scope.

(** The status of the HTTP response FastAPI sends for a handler's outcome. *)
Definition http_status {A : Type} (o : outcome A) : Z :=
  match o with
  | Return _ => 200
  | Raise (HTTPException status _) => status
  | Raise _ => 500
  end.

(** ** The file system and the IPFS node *)

(** A directory: its entries (file name, contents) in the order the
    operating system enumerates them. *)
Definition dir : Type := list (string * string).

Fixpoint dir_lookup (name : string) (d : dir) : option string :=
  match d with
  | [] => None
  | (n, c) :: d' => if String.eqb n name then Some c else dir_lookup name d'
  end.

(** The contents of the file [name] are replaced; its place in the
    enumeration is kept. *)
Fixpoint dir_replace (name content : string) (d : dir) : dir :=
  match d with
  | [] => []
  | (n, c) :: d' =>
      if String.eqb n name then (n, content) :: d' else (n, c) :: dir_replace name content d'
  end.

(** [open(path, "w")] and a write: the file is replaced, or created.  A
    created file is enumerated after the first [slot] entries of the
    directory (last, when there are fewer): the place is the operating
    system's choice. *)
Definition dir_write (slot : nat) (name content : string) (d : dir) : dir :=
  match dir_lookup name d with
  | Some _ => dir_replace name content d
  | None => take slot d ++ (name, content) :: drop slot d
  end.

(** [os.remove(path)]. *)
Definition dir_remove (name : string) (d : dir) : dir :=
  List.filter (fun e => negb (String.eqb (fst e) name)) d.

Inductive ipfs_event : Type :=
| Connected
| Added (path content : string)
| Closed.

Record world : Type := {
  metadata_dir : dir;          (* ./data/metadata *)
  uploads_dir : dir;           (* ./data/uploads *)
  ipfs_log : list ipfs_event   (* calls made to the IPFS client, oldest first *)
}.

(** *** File names *)

(** The longest file name the file system takes, in bytes. *)
Definition NAME_MAX : nat := 255.

Definition name_too_long (name : string) : bool :=
  (NAME_MAX <? String.length name)%nat.

Fixpoint has_char (c : Ascii.ascii) (s : string) : bool :=
  match s with
  | EmptyString => false
  | String c' s' => Ascii.eqb c' c || has_char c s'
  end.

Definition slash : Ascii.ascii := Ascii.ascii_of_nat 47.
Definition nul : Ascii.ascii := Ascii.zero.

(** What [path.exists()] raises for a name that no file has: [stat] fails
    with [ENAMETOOLONG] on a name over [NAME_MAX] bytes, and [exists] lets
    that error through, as [pathlib] of Python 3.11 does (it swallows the
    errors of a missing file and the [ValueError] of a name with a
    NUL). *)
Definition stat_error (name : string) : option exn :=
  if has_char nul name then None
  else if name_too_long name then Some OSError
  else None.

(** What [open(path, "w")] raises for a name that no file has: a name
    with a NUL is refused by Python, a name with a slash points into a
    folder that does not exist, a name over [NAME_MAX] bytes is refused by
    the file system (both are an [OSError]). *)
Definition create_error (name : string) : option exn :=
  if has_char nul name then Some ValueError
  else if has_char slash name || name_too_long name then Some OSError
  else None.

(** A file can be created under this name. *)
Definition creatable (name : string) : bool :=
  match create_error name with
  | None => true
  | Some _ => false
  end.

(** A text that can be the stem of a file name, as every uuid can: at
    most 36 bytes, without a slash or a NUL. *)
Definition plain_id (s : string) : bool :=
  (String.length s <=? 36)%nat && negb (has_char slash s) && negb (has_char nul s).

Definition nil_uuid : string := "00000000-0000-0000-0000-000000000000".

(** What the outside answers during one request. *)
Record env : Type := {
  (** the identifier drawn for the request. *)
  uuid_text : string;
  (** where the enumeration of its folder will show a file created under
      this name. *)
  slot_of : string -> nat;
  (** whether [ipfshttpclient.connect] succeeds. *)
  ipfs_connect : bool;
  (** [client.add(path)['Hash']] for the file at [path] with the given
      contents; [None] stands for raising. *)
  ipfs_add : string -> string -> option string
}.

(** [str(uuid4())]: 36 characters, hexadecimal digits and hyphens.  The
    environment may name the request by any other plain text, which the
    examples do for brevity. *)
Definition uuid4 (E : env) : string :=
  if plain_id (uuid_text E) then uuid_text E else nil_uuid.
#[global] Arguments uuid4 : simpl never.

(** An open IPFS client. *)
Inductive client : Type := Client.

Definition set_metadata_dir (f : dir -> dir) (w : world) : world :=
  {| metadata_dir := f (metadata_dir w); uploads_dir := uploads_dir w; ipfs_log := ipfs_log w |}.
Definition set_uploads_dir (f : dir -> dir) (w : world) : world :=
  {| metadata_dir := metadata_dir w; uploads_dir := f (uploads_dir w); ipfs_log := ipfs_log w |}.
Definition log_ipfs (ev : ipfs_event) (w : world) : world :=
  {| metadata_dir := metadata_dir w; uploads_dir := uploads_dir w; ipfs_log := ipfs_log w ++ [ev] |}.

(** The two directories the handlers name. *)
Inductive folder : Type := MetadataDir | UploadsDir.

Definition folder_of (f : folder) (w : world) : dir :=
  match f with MetadataDir => metadata_dir w | UploadsDir => uploads_dir w end.
Definition set_folder (f : folder) (g : dir -> dir) : world -> world :=
  match f with MetadataDir => set_metadata_dir g | UploadsDir => set_uploads_dir g end.

(** [path.exists()].  A file that exists has a name the file system
    took; for a name that no file has, [stat] may fail with an error that
    [exists] does not swallow. *)
Definition path_exists (f : folder) (name : string) : M world bool :=
  fun w => match dir_lookup name (folder_of f w) with
           | Some _ => (Return true, w)
           | None =>
               match stat_error name with
               | Some e => (Raise e, w)
               | None => (Return false, w)
               end
           end.

(** [open(path, "r")] and [f.read()]. *)
Definition read_file (f : folder) (name : string) : M world string :=
  fun w => match dir_lookup name (folder_of f w) with
           | Some c => (Return c, w)
           | None => (Raise FileNotFoundError, w)
           end.

(** What [open(path, "w")] raises in the directory [d]: a file that
    exists is opened; creating one raises under a name the file system
    refuses. *)
Definition write_error (name : string) (d : dir) : option exn :=
  match dir_lookup name d with
  | Some _ => None
  | None => create_error name
  end.

(** [open(path, "w")] and [f.write(content)]. *)
Definition write_file (E : env) (f : folder) (name content : string) : M world unit :=
  fun w => match write_error name (folder_of f w) with
           | Some e => (Raise e, w)
           | None => (Return tt, set_folder f (dir_write (slot_of E name) name content) w)
           end.

(** [os.remove(path)]. *)
Definition remove_file (f : folder) (name : string) : M world unit :=
  fun w => match dir_lookup name (folder_of f w) with
           | Some _ => (Return tt, set_folder f (dir_remove name) w)
           | None => (Raise FileNotFoundError, w)
           end.

(** [get_ipfs_client()]: the client, or [None] when connecting raised. *)
Definition get_ipfs_client (E : env) : M world (option client) :=
  fun w => if ipfs_connect E then (Return (Some Client), log_ipfs Connected w)
           else (Return None, w).

(** [client.add(path)['Hash']]. *)
Definition client_add (E : env) (c : client) (f : folder) (name : string) : M world string :=
  content <- read_file f name ;;
  modify_state (log_ipfs (Added name content)) ;;;
  match ipfs_add E name content with
  | Some cid => ret cid
  | None => raise IPFSError
  end.

(** [client.close()]. *)
Definition client_close (c : client) : M world unit :=
  modify_state (log_ipfs Closed).

(** ** The response models *)

(** [class NFTResponse(BaseModel)]. *)
Record NFTResponse : Type := {
  nft_id : string;
  content_cid : string;
  metadata_cid : string;
  metadata : gmap string json
}.

(** [class NFTListResponse(BaseModel)]. *)
Record NFTListResponse : Type := {
  nfts : list NFTResponse;
  total_count : Z
}.

(** [StreamingResponse(img_bytes, media_type=...)]. *)
Record StreamingResponse : Type := {
  body : string;
  media_type : string
}.

(** [UploadFile]: the uploaded part of the multipart form. *)
Record UploadFile : Type := {
  filename : string;
  content_type : option string;
  file_content : string
}.

Section Handlers.
Context {R : Runtime}.

(** pydantic's validation of a [str] field: a [str] is kept, [None] is
    refused (the field is not [Optional]). *)
Definition pyd_str (v : json) : option string :=
  match v with
  | JStr s => Some s
  | JNull => None
  | _ => pyd_str_lax v
  end.

(** pydantic's validation of a [Dict] field. *)
Definition pyd_dict (v : json) : option (gmap string json) :=
  match v with
  | JObj d => Some d
  | JNull => None
  | _ => pyd_dict_lax v
  end.

(** The four required fields of [NFTResponse], read from keyword
    arguments; keys the model does not declare are ignored. *)
Definition NFTResponse_validate (kwargs : gmap string json) : option NFTResponse :=
  i ← kwargs !! "nft_id" ≫= pyd_str;
  c ← kwargs !! "content_cid" ≫= pyd_str;
  m ← kwargs !! "metadata_cid" ≫= pyd_str;
  md ← kwargs !! "metadata" ≫= pyd_dict;
  Some {| nft_id := i; content_cid := c; metadata_cid := m; metadata := md |}.

(** [NFTResponse] built from the keyword arguments [nft_data]. *)
Definition NFTResponse_new {S : Type} (nft_data : json) : M S NFTResponse :=
  match nft_data with
  | JObj kwargs =>
      match NFTResponse_validate kwargs with
      | Some r => ret r
      | None => raise ValidationError
      end
  | _ => raise TypeError
  end.

(** [json.load(f)] on the text read from [f]. *)
Definition json_load {S : Type} (text : string) : M S json :=
  match json_loads text with
  | Some v => ret v
  | None => raise JSONDecodeError
  end.

(** *** Handler frames: the world and the handler's local variables *)

Definition in_world {L A : Type} (m : M world A) : M (world * L) A :=
  fun s => let '(r, w') := m (fst s) in (r, (w', snd s)).

Definition assign {L : Type} (v : L) : M (world * L) unit :=
  fun s => (Return tt, (fst s, v)).

Definition local {L : Type} : M (world * L) L :=
  fun s => (Return (snd s), s).

Definition run_frame {L A : Type} (init : L) (m : M (world * L) A) : M world A :=
  fun w => let '(r, s) := m (w, init) in (r, fst s).

(** *** POST /upload/ *)

(** The local variable [ipfs_client] of [upload_to_ipfs]: unbound
    ([None]), or bound to what [get_ipfs_client()] returned. *)
Definition upload_locals : Type := option (option client).

(** Lines 57-119: the body of the [try]. *)
Definition upload_body (E : env) (file : option UploadFile) (name description : string)
    (attributes : option string) : M (world * upload_locals) NFTResponse :=
  let nft_id := uuid4 E in
  nft_attributes <-
    match attributes with
    | Some a =>
        if truthy (JStr a) then
          match json_loads a with
          | Some v => ret v
          | None => raise (HTTPException 400 "Invalid attributes JSON format")
          end
        else ret (JArr [])
    | None => ret (JArr [])
    end ;;
  let metadata : gmap string json :=
    <["attributes" := nft_attributes]>
      (<["description" := JStr description]> (<["name" := JStr name]> ∅)) in
  ipfs_client <- in_world (get_ipfs_client E) ;;
  assign (Some ipfs_client) ;;;
  match ipfs_client with
  | None => raise (HTTPException 503 "IPFS connection failed")
  | Some cl =>
      (* [content_cid] and [metadata] after lines 81-97 *)
      updated <-
        match file with
        | Some f =>
            let file_path := nft_id +:+ "_" +:+ filename f in
            in_world (write_file E UploadsDir file_path (file_content f)) ;;;
            content_cid <- in_world (client_add E cl UploadsDir file_path) ;;
            let metadata :=
              <["content_type" := of_opt_str (content_type f)]>
                (<["image" := JStr ("ipfs://" +:+ content_cid)]> metadata) in
            in_world (remove_file UploadsDir file_path) ;;;
            ret (Some content_cid, metadata)
        | None => ret (None, metadata)
        end ;;
      let content_cid : option string := fst updated in
      let metadata : gmap string json := snd updated in
      let metadata_json := json_dumps (JObj metadata) in
      let metadata_file := nft_id +:+ ".json" in
      in_world (write_file E MetadataDir metadata_file metadata_json) ;;;
      metadata_cid <- in_world (client_add E cl MetadataDir metadata_file) ;;
      let nft_data : gmap string json :=
        <["metadata" := JObj metadata]>
          (<["metadata_cid" := JStr metadata_cid]>
             (<["content_cid" := of_opt_str content_cid]>
                (<["nft_id" := JStr nft_id]> ∅))) in
      in_world (write_file E MetadataDir (nft_id +:+ "_data.json")
                  (json_dumps (JObj nft_data))) ;;;
      NFTResponse_new (JObj nft_data)
  end.

(** Lines 121-122: [except Exception as e].  [HTTPException] is an
    [Exception], so this clause receives the 400 and the 503 raised in the
    body as well. *)
Definition upload_except {S : Type} (e : exn) : M S NFTResponse :=
  raise (HTTPException 500 ("Error uploading to IPFS: " +:+ exn_str e)).

(** Lines 123-125: [finally]. *)
Definition upload_finally : M (world * upload_locals) unit :=
  l <- local ;;
  match l with
  | Some (Some cl) => in_world (client_close cl)
  | _ => ret tt
  end.

Definition upload_to_ipfs (E : env) (file : option UploadFile) (name description : string)
    (attributes : option string) : M world NFTResponse :=
  run_frame None
    (try_finally
       (try_except (upload_body E file name description attributes) upload_except)
       upload_finally).

(** *** GET /nft/{nft_id} *)

Definition get_nft (nft_id : string) : M world NFTResponse :=
  try_except
    (let nft_data_file := nft_id +:+ "_data.json" in
     found <- path_exists MetadataDir nft_data_file ;;
     if negb found then raise (HTTPException 404 "NFT not found")
     else
       text <- read_file MetadataDir nft_data_file ;;
       nft_data <- json_load text ;;
       NFTResponse_new nft_data)
    (fun e =>
       match e with
       | HTTPException _ _ => raise e
       | _ => raise (HTTPException 500 ("Error retrieving NFT: " +:+ exn_str e))
       end).

(** *** GET /nfts/ *)

(** [fnmatch] against the pattern [*_data.json]. *)
Definition is_data_file (name : string) : bool :=
  let suffix := "_data.json" in
  let n := String.length name in
  let k := String.length suffix in
  (k <=? n)%nat && String.eqb (substring (n - k) k name) suffix.

(** [list(metadata_dir.glob("*_data.json"))]. *)
Definition glob_data_files : M world (list string) :=
  fun w => (Return (List.filter is_data_file (map fst (metadata_dir w))), w).

(** Lines 159-166: the loop over the files found; a file that cannot be
    read, parsed or validated is reported and skipped. *)
Fixpoint load_all (nft_data_files : list string) (acc : list NFTResponse)
    : M world (list NFTResponse) :=
  match nft_data_files with
  | [] => ret acc
  | nft_file :: rest =>
      acc' <- try_except
                (text <- read_file MetadataDir nft_file ;;
                 nft_data <- json_load text ;;
                 r <- NFTResponse_new nft_data ;;
                 ret (acc ++ [r]))
                (fun _ => ret acc) ;;
      load_all rest acc'
  end.

Definition is_number (v : json) : bool :=
  match v with
  | JBool _ | JInt _ | JFloat _ => true
  | _ => false
  end.

(** [a < b]: two strings compare lexicographically, two numbers and two
    lists as the runtime says; every other pair raises [TypeError]
    ([None]). *)
Definition py_lt (a b : json) : option bool :=
  match a, b with
  | JStr x, JStr y => Some (String.ltb x y)
  | JArr x, JArr y => py_list_lt x y
  | _, _ => if is_number a && is_number b then Some (py_num_lt a b) else None
  end.

(** [l.sort(key=key, reverse=True)] is a stable sort into descending
    order that compares keys with [<] only.  It is modelled by insertion
    from the right: an element moves behind exactly the elements whose key
    is greater, so elements with equal keys keep their order.  [None]
    stands for a [TypeError] raised by a comparison. *)
Fixpoint insert_reverse {A : Type} (key : A -> json) (x : A) (l : list A) : option (list A) :=
  match l with
  | [] => Some [x]
  | y :: l' =>
      match py_lt (key x) (key y) with
      | None => None
      | Some true => cons y <$> insert_reverse key x l'
      | Some false => Some (x :: y :: l')
      end
  end.

Fixpoint sort_reverse {A : Type} (key : A -> json) (l : list A) : option (list A) :=
  match l with
  | [] => Some []
  | x :: l' => sort_reverse key l' ≫= insert_reverse key x
  end.

(** [lambda x: x.metadata.get("name", "")]. *)
Definition name_key (x : NFTResponse) : json :=
  default (JStr "") (metadata x !! "name").

Definition list_all_nfts : M world NFTListResponse :=
  try_except
    (nft_data_files <- glob_data_files ;;
     loaded <- load_all nft_data_files [] ;;
     match sort_reverse name_key loaded with
     | Some sorted =>
         ret {| nfts := sorted; total_count := Z.of_nat (length sorted) |}
     | None => raise TypeError
     end)
    (fun e => raise (HTTPException 500 ("Error listing NFTs: " +:+ exn_str e))).

(** *** GET /health *)

Definition health_check (E : env) : M world (gmap string json) :=
  ipfs_status <-
    try_except
      (cl <- get_ipfs_client E ;;
       match cl with
       | Some c => client_close c ;;; ret "connected"
       | None => ret "disconnected"
       end)
      (fun _ => ret "disconnected") ;;
  ret (<["ipfs" := JStr ipfs_status]> (<["status" := JStr "ok"]> ∅)).

(** *** GET /qrcode/{nft_id} and GET /qrcode/gateway/{nft_id} *)

(** A value inside an f-string: a [str] as it is, anything else as its
    [repr] (for the values JSON has, [str] and [repr] agree on all but
    strings). *)
Definition py_format (v : json) : string :=
  match v with
  | JStr s => s
  | _ => py_repr v
  end.

(** [nft_data.get(key)], which only a [dict] has. *)
Definition data_get {S : Type} (nft_data : json) (key : string) : M S json :=
  match nft_data with
  | JObj d => ret (dict_get key d)
  | _ => raise AttributeError
  end.

(** [qrcode.make(url)] saved as PNG into a bytes buffer. *)
Definition make_png {S : Type} (url : string) : M S string :=
  match qrcode_png url with
  | Some png => ret png
  | None => raise QRCodeError
  end.

Definition qr_except {S A : Type} (e : exn) : M S A :=
  match e with
  | HTTPException _ _ => raise e
  | _ => raise (HTTPException 500 ("Error generating QR code: " +:+ exn_str e))
  end.

Definition generate_qr_code (nft_id : string) : M world StreamingResponse :=
  try_except
    (let nft_data_file := nft_id +:+ "_data.json" in
     found <- path_exists MetadataDir nft_data_file ;;
     if negb found then raise (HTTPException 404 "NFT not found")
     else
       text <- read_file MetadataDir nft_data_file ;;
       nft_data <- json_load text ;;
       content_cid <- data_get nft_data "content_cid" ;;
       content_cid <- (if negb (truthy content_cid)
                       then data_get nft_data "metadata_cid"
                       else ret content_cid) ;;
       let ipfs_url := "ipfs://" +:+ py_format content_cid in
       img_bytes <- make_png ipfs_url ;;
       ret {| body := img_bytes; media_type := "image/png" |})
    qr_except.

Definition generate_gateway_qr_code (nft_id : string) (gateway : string)
    : M world StreamingResponse :=
  try_except
    (let nft_data_file := nft_id +:+ "_data.json" in
     found <- path_exists MetadataDir nft_data_file ;;
     if negb found then raise (HTTPException 404 "NFT not found")
     else
       text <- read_file MetadataDir nft_data_file ;;
       nft_data <- json_load text ;;
       content_cid <- data_get nft_data "content_cid" ;;
       content_cid <- (if negb (truthy content_cid)
                       then data_get nft_data "metadata_cid"
                       else ret content_cid) ;;
       let gateway_url := "https://" +:+ gateway +:+ "/ipfs/" +:+ py_format content_cid in
       img_bytes <- make_png gateway_url ;;
       ret {| body := img_bytes; media_type := "image/png" |})
    qr_except.

(** The query parameter [gateway] defaults to this host. *)
Definition default_gateway : string := "ipfs.io".

End Handlers.

(** ** Vocabulary of the properties *)

Section Vocabulary.
Context {R : Runtime}.

(** The value of [nft_attributes] after lines 61-66: the parsed
    attributes, the empty list when the form field is missing or empty, and
    [None] when the 400 is raised. *)
Definition read_attributes (attributes : option string) : option json :=
  match attributes with
  | Some a => if truthy (JStr a) then json_loads a else Some (JArr [])
  | None => Some (JArr [])
  end.

(** The metadata of a record created with a file. *)
Definition metadata_with_file (name description : string) (attrs : json)
    (f : UploadFile) (cid : string) : gmap string json :=
  <["content_type" := of_opt_str (content_type f)]>
    (<["image" := JStr ("ipfs://" +:+ cid)]>
       (<["attributes" := attrs]>
          (<["description" := JStr description]> (<["name" := JStr name]> ∅)))).

(** The metadata of a record created without a file. *)
Definition metadata_without_file (name description : string) (attrs : json)
    : gmap string json :=
  <["attributes" := attrs]>
    (<["description" := JStr description]> (<["name" := JStr name]> ∅)).

(** The dict [nft_data] that [upload_to_ipfs] dumps into the data file. *)
Definition nft_data_doc (nft_id : string) (content_cid : option string)
    (metadata_cid : string) (metadata : gmap string json) : gmap string json :=
  <["metadata" := JObj metadata]>
    (<["metadata_cid" := JStr metadata_cid]>
       (<["content_cid" := of_opt_str content_cid]>
          (<["nft_id" := JStr nft_id]> ∅))).

(** The same dict, for a record. *)
Definition record_doc (r : NFTResponse) : gmap string json :=
  nft_data_doc (nft_id r) (Some (content_cid r)) (metadata_cid r) (metadata r).

(** The name of the data file of a record id. *)
Definition data_file_of (nft_id : string) : string := nft_id +:+ "_data.json".

(** The data files of the store, as enumerated. *)
Definition data_files (w : world) : list string :=
  List.filter is_data_file (map fst (metadata_dir w)).

(** A data file's text as a record, when it parses and validates. *)
Definition parse_record (text : string) : option NFTResponse :=
  match json_loads text with
  | Some (JObj d) => NFTResponse_validate d
  | _ => None
  end.

(** The parseable records of the store, in enumeration order. *)
Definition parsed_records (w : world) : list NFTResponse :=
  omap (fun name => dir_lookup name (metadata_dir w) ≫= parse_record) (data_files w).

(** The name a record sorts by when it is a string or missing. *)
Definition name_str (r : NFTResponse) : string :=
  match metadata r !! "name" with
  | Some (JStr s) => s
  | _ => ""
  end.

(** The record's name, when it has one, is a string. *)
Definition string_named (r : NFTResponse) : bool :=
  match metadata r !! "name" with
  | Some (JStr _) | None => true
  | Some _ => false
  end.

Definition string_names (l : list NFTResponse) : Prop :=
  forallb string_named l = true.

(** [a] may stand before [b] in descending order of the key [k]. *)
Definition descending {A : Type} (k : A -> string) (a b : A) : Prop :=
  String.leb (k b) (k a) = true.

(** The elements whose key is [s]. *)
Definition keyed {A : Type} (k : A -> string) (s : string) (l : list A) : list A :=
  List.filter (fun a => String.eqb (k a) s) l.

Definition sorted_by_name_desc (l : list NFTResponse) : Prop :=
  StronglySorted (descending name_str) l.

(** Records that share a name stand in the same order in both lists. *)
Definition same_name_order (l l' : list NFTResponse) : Prop :=
  forall s, keyed name_str s l = keyed name_str s l'.

(** The listing of a store answers with the parseable records, sorted by
    descending name, records of one name in enumeration order. *)
Definition listing_sorted_stable (w : world) : Prop :=
  exists resp,
    fst (list_all_nfts w) = Return resp /\
    nfts resp ≡ₚ parsed_records w /\
    sorted_by_name_desc (nfts resp) /\
    same_name_order (nfts resp) (parsed_records w).

(** The identifier a QR code points to (lines 207-209): the content
    identifier when it is truthy, the metadata identifier otherwise. *)
Definition qr_cid (d : gmap string json) : json :=
  if truthy (dict_get "content_cid" d) then dict_get "content_cid" d
  else dict_get "metadata_cid" d.

(** What a QR handler answers once the target [url] is known. *)
Definition qr_response (url : string) : outcome StreamingResponse :=
  match qrcode_png url with
  | Some png => Return {| body := png; media_type := "image/png" |}
  | None =>
      Raise (HTTPException 500 ("Error generating QR code: " +:+ exn_str QRCodeError))
  end.

(** The data file of [nft_id] exists and holds the JSON object [d]. *)
Definition stored (w : world) (nft_id : string) (d : gmap string json) : Prop :=
  exists text,
    dir_lookup (data_file_of nft_id) (metadata_dir w) = Some text /\
    json_loads text = Some (JObj d).

(** The storage client returns identifiers that are not empty, as IPFS
    content identifiers are. *)
Definition cids_nonempty (E : env) : Prop :=
  forall path content cid, ipfs_add E path content = Some cid -> cid <> "".

(** A create request is turned down without a trace: it raises, and the
    record store, the upload folder and the IPFS log are as before. *)
Definition rejected_without_trace (E : env) (file : option UploadFile)
    (name description : string) (attributes : option string) (w : world) : Prop :=
  exists e, upload_to_ipfs E file name description attributes w = (Raise e, w).

End Vocabulary.

(** ** A concrete runtime, environment and stores

    Used to run the handlers on examples.  The codec of this runtime names
    each document by a short text instead of spelling out JSON syntax: a
    record is written as [record ] followed by its id, and every other
    text fails to parse, apart from the empty list. *)

Module Fixture.

Definition png_file : UploadFile :=
  {| filename := "a.png"; content_type := Some "image/png"; file_content := "abc" |}.

(** Records created with a file: two of them share the name [Art1]. *)
Definition record_art0 : NFTResponse :=
  {| nft_id := "id-0"; content_cid := "QmOld"; metadata_cid := "QmOldMeta";
     metadata := metadata_with_file "Art0" "d" (JArr []) png_file "QmOld" |}.
Definition record_art1 : NFTResponse :=
  {| nft_id := "id-1"; content_cid := "QmFile"; metadata_cid := "QmMeta";
     metadata := metadata_with_file "Art1" "d" (JArr []) png_file "QmFile" |}.
Definition record_art1_again : NFTResponse :=
  {| nft_id := "id-3"; content_cid := "QmTwin"; metadata_cid := "QmTwinMeta";
     metadata := metadata_with_file "Art1" "twin" (JArr []) png_file "QmTwin" |}.

(** Records whose metadata has no name, and a null name. *)
Definition record_unnamed : NFTResponse :=
  {| nft_id := "id-4"; content_cid := "QmAnon"; metadata_cid := "QmAnonMeta";
     metadata := <["description" := JStr "d"]> ∅ |}.
Definition record_null_name : NFTResponse :=
  {| nft_id := "id-5"; content_cid := "QmNull"; metadata_cid := "QmNullMeta";
     metadata := <["name" := JNull]> ∅ |}.

(** The document [upload_to_ipfs] writes for a request without a file. *)
Definition doc_art2 : gmap string json :=
  nft_data_doc "id-2" None "QmMeta" (metadata_without_file "Art2" "d" (JArr [])).

Definition documents : list (string * json) :=
  [ ("[]", JArr []);
    ("record id-0", JObj (record_doc record_art0));
    ("record id-1", JObj (record_doc record_art1));
    ("record id-2", JObj doc_art2);
    ("record id-3", JObj (record_doc record_art1_again));
    ("record id-4", JObj (record_doc record_unnamed));
    ("record id-5", JObj (record_doc record_null_name)) ].

Fixpoint lookup_document (text : string) (docs : list (string * json)) : option json :=
  match docs with
  | [] => None
  | (t, v) :: docs' => if String.eqb t text then Some v else lookup_document text docs'
  end.

Definition dumps (v : json) : string :=
  match v with
  | JObj d =>
      match d !! "nft_id" with
      | Some (JStr i) => "record " +:+ i
      | _ => "metadata"
      end
  | _ => "value"
  end.

Definition repr (v : json) : string :=
  match v with
  | JNull => "None"
  | JBool true => "True"
  | JBool false => "False"
  | _ => "..."
  end.

Definition describe (e : exn) : string :=
  match e with
  | HTTPException _ detail => detail
  | JSONDecodeError => "JSONDecodeError"
  | ValidationError => "ValidationError"
  | TypeError => "TypeError"
  | AttributeError => "AttributeError"
  | FileNotFoundError => "FileNotFoundError"
  | IPFSError => "IPFSError"
  | QRCodeError => "QRCodeError"
  | OSError => "OSError"
  | ValueError => "ValueError"
  end.

#[export] Instance runtime : Runtime := {|
  json_loads := fun text => lookup_document text documents;
  json_dumps := dumps;
  py_repr := repr;
  py_num_lt := fun _ _ => false;
  py_list_lt := fun _ _ => Some false;
  pyd_str_lax := fun _ => None;
  pyd_dict_lax := fun _ => None;
  qrcode_png := fun url => Some ("PNG of " +:+ url);
  exn_str := describe
|}.

(** New files are enumerated last. *)
Definition last_slot (name : string) : nat := 1000%nat.

(** The node answers, and hands out one identifier for metadata documents
    and one for everything else. *)
Definition node_up (id : string) : env :=
  {| uuid_text := id;
     slot_of := last_slot;
     ipfs_connect := true;
     ipfs_add := fun path _ =>
       if String.eqb path (id +:+ ".json") then Some "QmMeta" else Some "QmFile" |}.

(** The node refuses the connection. *)
Definition node_down (id : string) : env :=
  {| uuid_text := id; slot_of := last_slot; ipfs_connect := false;
     ipfs_add := fun _ _ => None |}.

Definition empty_world : world :=
  {| metadata_dir := []; uploads_dir := []; ipfs_log := [] |}.

(** The world after the record [Art1] was created in the empty world. *)
Definition after_art1 : world :=
  {| metadata_dir := [("id-1.json", "metadata"); ("id-1_data.json", "record id-1")];
     uploads_dir := [];
     ipfs_log := [Connected; Added "id-1_a.png" "abc"; Added "id-1.json" "metadata"; Closed] |}.

(** The world after a create request without a file in the empty world. *)
Definition after_art2 : world :=
  {| metadata_dir := [("id-2.json", "metadata"); ("id-2_data.json", "record id-2")];
     uploads_dir := [];
     ipfs_log := [Connected; Added "id-2.json" "metadata"; Closed] |}.

(** A store with four parseable records (two named [Art1]), one data file
    that is not JSON, and the data file of a record created without a
    file. *)
Definition gallery : world :=
  {| metadata_dir :=
       [ ("id-0.json", "metadata");
         ("id-0_data.json", "record id-0");
         ("id-1_data.json", "record id-1");
         ("broken_data.json", "{bad");
         ("id-3_data.json", "record id-3");
         ("id-4_data.json", "record id-4");
         ("id-2_data.json", "record id-2") ];
     uploads_dir := [];
     ipfs_log := [] |}.

(** The listing of the gallery. *)
Definition gallery_listing : NFTListResponse :=
  {| nfts := [record_art1; record_art1_again; record_art0; record_unnamed];
     total_count := 4 |}.

(** A store where one record's name is a string and another's is null. *)
Definition mixed_names : world :=
  {| metadata_dir :=
       [ ("id-1_data.json", "record id-1");
         ("id-5_data.json", "record id-5") ];
     uploads_dir := [];
     ipfs_log := [] |}.

End Fixture.

(** ** Further vocabulary *)

Section FurtherVocabulary.
Context {R : Runtime}.

(** The name of the metadata document of a record id. *)
Definition metadata_file_of (nft_id : string) : string := nft_id +:+ ".json".

(** The name under which an uploaded file is kept while it is added. *)
Definition temp_file_of (nft_id : string) (f : UploadFile) : string :=
  nft_id +:+ "_" +:+ filename f.

(** The metadata [upload_to_ipfs] builds for a request. *)
Definition request_metadata (name description : string) (attrs : json)
    (file : option UploadFile) (cid : string) : gmap string json :=
  match file with
  | Some f => metadata_with_file name description attrs f cid
  | None => metadata_without_file name description attrs
  end.

Definition is_added (ev : ipfs_event) : bool :=
  match ev with
  | Added _ _ => true
  | _ => false
  end.

(** What one handler run may add to the log of the IPFS client: nothing,
    or one connection that is opened, used for [add] calls only, and
    closed. *)
Definition client_session (evs : list ipfs_event) : Prop :=
  evs = [] \/
  exists adds, evs = Connected :: adds ++ [Closed] /\ forallb is_added adds = true.

(** The key is missing from the dict, or maps to [None]. *)
Definition missing_or_null (d : gmap string json) (key : string) : Prop :=
  d !! key = None \/ d !! key = Some JNull.


(** No file of the store has this name. *)
Definition absent (name : string) (w : world) : Prop :=
  dir_lookup name (metadata_dir w) = None.

(** The create handler from the upload of the metadata document on, as
    one decision tree: [content_cid] and [metadata] are what the file stage
    left, [w] is the world it left. *)
Definition upload_finish_outline (E : env) (content_cid : option string)
    (metadata : gmap string json) (w : world) : outcome NFTResponse * world :=
  let nft_id := uuid4 E in
  let metadata_json := json_dumps (JObj metadata) in
  let metadata_file := metadata_file_of nft_id in
  let w1 := log_ipfs (Added metadata_file metadata_json)
              (set_metadata_dir
                 (dir_write (slot_of E metadata_file) metadata_file metadata_json) w) in
  match ipfs_add E (metadata_file_of nft_id) metadata_json with
  | None =>
      (Raise (HTTPException 500 ("Error uploading to IPFS: " +:+ exn_str IPFSError)),
       log_ipfs Closed w1)
  | Some metadata_cid =>
      let nft_data := nft_data_doc nft_id content_cid metadata_cid metadata in
      let data_file := data_file_of nft_id in
      let w2 := set_metadata_dir
                  (dir_write (slot_of E data_file) data_file (json_dumps (JObj nft_data)))
                  w1 in
      (match content_cid with
       | Some cid =>
           Return {| nft_id := nft_id; content_cid := cid;
                     metadata_cid := metadata_cid; metadata := metadata |}
       | None =>
           Raise (HTTPException 500 ("Error uploading to IPFS: " +:+ exn_str ValidationError))
       end, log_ipfs Closed w2)
  end.

(** The whole create handler as one decision tree; [upload_to_ipfs] is
    proved equal to it. *)
Definition upload_outline (E : env) (file : option UploadFile) (name description : string)
    (attributes : option string) (w : world) : outcome NFTResponse * world :=
  match read_attributes attributes with
  | None =>
      (Raise (HTTPException 500
                ("Error uploading to IPFS: "
                 +:+ exn_str (HTTPException 400 "Invalid attributes JSON format"))), w)
  | Some attrs =>
      if ipfs_connect E then
        let w1 := log_ipfs Connected w in
        match file with
        | Some f =>
            let path := temp_file_of (uuid4 E) f in
            match write_error path (uploads_dir w) with
            | Some e =>
                (Raise (HTTPException 500 ("Error uploading to IPFS: " +:+ exn_str e)),
                 log_ipfs Closed w1)
            | None =>
                let w2 := log_ipfs (Added path (file_content f))
                            (set_uploads_dir
                               (dir_write (slot_of E path) path (file_content f)) w1) in
                match ipfs_add E path (file_content f) with
                | None =>
                    (Raise (HTTPException 500
                              ("Error uploading to IPFS: " +:+ exn_str IPFSError)),
                     log_ipfs Closed w2)
                | Some cid =>
                    upload_finish_outline E (Some cid)
                      (metadata_with_file name description attrs f cid)
                      (set_uploads_dir (dir_remove path) w2)
                end
            end
        | None =>
            upload_finish_outline E None (metadata_without_file name description attrs) w1
        end
      else
        (Raise (HTTPException 500
                  ("Error uploading to IPFS: "
                   +:+ exn_str (HTTPException 503 "IPFS connection failed"))), w)
  end.

End FurtherVocabulary.

(** ** More environments and stores *)

Module Scenes.

(** A record whose content identifier is the empty string. *)
Definition record_blank_cid : NFTResponse :=
  {| nft_id := "id-6"; content_cid := ""; metadata_cid := "QmBlankMeta";
     metadata := <["name" := JStr "Blank"]> ∅ |}.

Definition documents : list (string * json) :=
  Fixture.documents ++ [("record id-6", JObj (record_doc record_blank_cid))].

#[export] Instance runtime : Runtime := {|
  json_loads := fun text => Fixture.lookup_document text documents;
  json_dumps := Fixture.dumps;
  py_repr := Fixture.repr;
  py_num_lt := fun _ _ => false;
  py_list_lt := fun _ _ => Some false;
  pyd_str_lax := fun _ => None;
  pyd_dict_lax := fun _ => None;
  qrcode_png := fun url => Some ("PNG of " +:+ url);
  exn_str := Fixture.describe
|}.

(** The node answers, stores metadata documents and refuses every other
    file. *)
Definition node_refusing_files (id : string) : env :=
  {| uuid_text := id;
     slot_of := Fixture.last_slot;
     ipfs_connect := true;
     ipfs_add := fun path _ =>
       if String.eqb path (id +:+ ".json") then Some "QmMeta" else None |}.

(** The node answers, stores uploaded files and refuses metadata
    documents. *)
Definition node_refusing_metadata (id : string) : env :=
  {| uuid_text := id;
     slot_of := Fixture.last_slot;
     ipfs_connect := true;
     ipfs_add := fun path _ =>
       if String.eqb path (id +:+ ".json") then None else Some "QmFile" |}.

(** A store that holds the record [Art0] only. *)
Definition art0_only : world :=
  {| metadata_dir := [("id-0.json", "metadata"); ("id-0_data.json", "record id-0")];
     uploads_dir := [];
     ipfs_log := [] |}.

(** That store after [Art1] was created in it. *)
Definition art0_then_art1 : world :=
  {| metadata_dir :=
       [ ("id-0.json", "metadata"); ("id-0_data.json", "record id-0");
         ("id-1.json", "metadata"); ("id-1_data.json", "record id-1") ];
     uploads_dir := [];
     ipfs_log := [Connected; Added "id-1_a.png" "abc"; Added "id-1.json" "metadata"; Closed] |}.

(** The node answers as [Fixture.node_up] does, and the operating system
    enumerates a new file before the files there were. *)
Definition node_up_new_first (id : string) : env :=
  {| uuid_text := id;
     slot_of := fun _ => 0%nat;
     ipfs_connect := true;
     ipfs_add := fun path _ =>
       if String.eqb path (id +:+ ".json") then Some "QmMeta" else Some "QmFile" |}.

(** The store [art0_only] after [Art1] was created in it, the new files
    being enumerated first. *)
Definition art1_before_art0 : world :=
  {| metadata_dir :=
       [ ("id-1_data.json", "record id-1"); ("id-1.json", "metadata");
         ("id-0.json", "metadata"); ("id-0_data.json", "record id-0") ];
     uploads_dir := [];
     ipfs_log := [Connected; Added "id-1_a.png" "abc"; Added "id-1.json" "metadata"; Closed] |}.

(** A store without a parseable data file: a metadata document, a data
    file that is not JSON and a data file that holds a list. *)
Definition junk : world :=
  {| metadata_dir :=
       [ ("id-0.json", "metadata"); ("broken_data.json", "{bad"); ("list_data.json", "[]") ];
     uploads_dir := [];
     ipfs_log := [] |}.

(** An identifier of 246 characters: the name of its data file has 256. *)
Definition long_id : string := String.concat "" (List.repeat "a" 246).



(** A store whose one record has an empty content identifier. *)
Definition blank_cid_store : world :=
  {| metadata_dir := [("id-6_data.json", "record id-6")];
     uploads_dir := [];
     ipfs_log := [] |}.

(** The empty world after a create request whose file the node refused. *)
Definition after_refused_file : world :=
  {| metadata_dir := [];
     uploads_dir := [("id-1_a.png", "abc")];
     ipfs_log := [Connected; Added "id-1_a.png" "abc"; Closed] |}.

(** The empty world after a create request whose metadata the node
    refused. *)
Definition after_refused_metadata : world :=
  {| metadata_dir := [("id-1.json", "metadata")];
     uploads_dir := [];
     ipfs_log := [Connected; Added "id-1_a.png" "abc"; Added "id-1.json" "metadata"; Closed] |}.

End Scenes.

(** ** Proof tools *)

(** Unfold the monad and the primitive operations of the world. *)
Ltac unfold_monad :=
  unfold get_ipfs_client, client_add, client_close, write_file, remove_file, read_file,
    path_exists, glob_data_files, json_load, NFTResponse_new, data_get, make_png in *;
  unfold run_frame, try_finally, try_except, in_world, assign, local in *;
  unfold bind, modify_state, get_state, ret, raise in *.

(** Project the fields of the updated worlds. *)
Ltac run :=
  cbn [fst snd uploads_dir metadata_dir ipfs_log log_ipfs set_uploads_dir
       set_metadata_dir set_folder folder_of] in *.

(** * Properties *)

(** ** Facts about directories *)

Lemma dir_lookup_app name (d e : dir) :
  dir_lookup name (d ++ e) =
    match dir_lookup name d with
    | Some c => Some c
    | None => dir_lookup name e
    end.
Proof.
  induction d as [|[n c] d IH]; simpl; [done|].
  by destruct (String.eqb n name).
Qed.

Lemma dir_lookup_names name (d : dir) :
  name ∈ map fst d <-> is_Some (dir_lookup name d).
Proof.
  induction d as [|[n c] d IH]; simpl.
  - split; [by intros ?%elem_of_nil|by intros [? ?]].
  - rewrite elem_of_cons, IH. destruct (String.eqb_spec n name) as [->|Hne].
    + split; [by eexists|by left].
    + split; [intros [->|]; done|by right].
Qed.

Lemma dir_lookup_remove name (d : dir) : dir_lookup name (dir_remove name d) = None.
Proof.
  unfold dir_remove. induction d as [|[n c] d IH]; simpl; [done|].
  destruct (String.eqb n name) eqn:Hn; simpl; [done|]. by rewrite Hn.
Qed.

Lemma dir_lookup_remove_ne name name' (d : dir) :
  name <> name' -> dir_lookup name' (dir_remove name d) = dir_lookup name' d.
Proof.
  intros Hne. unfold dir_remove. induction d as [|[n c] d IH]; simpl; [done|].
  destruct (String.eqb_spec n name) as [->|Hn]; simpl.
  - by destruct (String.eqb_spec name name').
  - by rewrite IH.
Qed.

Lemma dir_lookup_replace name content (d : dir) :
  is_Some (dir_lookup name d) ->
  dir_lookup name (dir_replace name content d) = Some content.
Proof.
  induction d as [|[n c] d IH]; simpl; [by intros [? ?]|].
  destruct (String.eqb n name) eqn:Hn; simpl; by rewrite Hn.
Qed.

Lemma dir_lookup_replace_ne name name' content (d : dir) :
  name <> name' ->
  dir_lookup name' (dir_replace name content d) = dir_lookup name' d.
Proof.
  intros Hne. induction d as [|[n c] d IH]; simpl; [done|].
  destruct (String.eqb_spec n name) as [->|Hn]; simpl.
  - by destruct (String.eqb_spec name name').
  - by destruct (String.eqb_spec n name').
Qed.

(** A file put between the entries of a directory hides none of them. *)
Lemma dir_lookup_insert_ne name name' content (d1 d2 : dir) :
  name <> name' ->
  dir_lookup name' (d1 ++ (name, content) :: d2) = dir_lookup name' (d1 ++ d2).
Proof.
  intros Hne. rewrite !dir_lookup_app. simpl.
  by destruct (String.eqb_spec name name').
Qed.

Lemma dir_lookup_take name (d : dir) n :
  dir_lookup name d = None -> dir_lookup name (take n d) = None.
Proof.
  intros H. rewrite <- (take_drop n d), dir_lookup_app in H.
  by destruct (dir_lookup name (take n d)).
Qed.

Lemma dir_lookup_write slot name content d :
  dir_lookup name (dir_write slot name content d) = Some content.
Proof.
  unfold dir_write. destruct (dir_lookup name d) eqn:H.
  - apply dir_lookup_replace. by rewrite H.
  - rewrite dir_lookup_app, (dir_lookup_take _ _ _ H). simpl.
    by rewrite String.eqb_refl.
Qed.

Lemma dir_lookup_write_ne slot name name' content d :
  name <> name' ->
  dir_lookup name' (dir_write slot name content d) = dir_lookup name' d.
Proof.
  intros Hne. unfold dir_write. destruct (dir_lookup name d).
  - by apply dir_lookup_replace_ne.
  - by rewrite dir_lookup_insert_ne, take_drop.
Qed.

(** A file that is created stands somewhere among the files there were. *)
Lemma dir_write_absent slot name content (d : dir) :
  dir_lookup name d = None ->
  dir_write slot name content d = take slot d ++ (name, content) :: drop slot d.
Proof. unfold dir_write. by intros ->. Qed.

(** ** Facts about strings and file names *)

Lemma string_length_app (s t : string) :
  String.length (s +:+ t) = (String.length s + String.length t)%nat.
Proof.
  induction s as [|a s IH]; [done|].
  change (S (String.length (s +:+ t)) = S (String.length s + String.length t)).
  by rewrite IH.
Qed.

Lemma string_app_inj_r (s t u : string) : s +:+ u = t +:+ u -> s = t.
Proof.
  revert t. induction s as [|a s IH]; intros [|b t] H; simpl in *.
  - done.
  - apply (f_equal String.length) in H. rewrite !string_length_app in H. simpl in H. lia.
  - apply (f_equal String.length) in H. rewrite !string_length_app in H. simpl in H. lia.
  - change (String a (s +:+ u) = String b (t +:+ u)) in H.
    injection H as -> H. by rewrite (IH t H).
Qed.

Lemma string_app_assoc (s t u : string) : (s +:+ t) +:+ u = s +:+ (t +:+ u).
Proof.
  induction s as [|a s IH]; [done|].
  change (String a ((s +:+ t) +:+ u) = String a (s +:+ (t +:+ u))). by rewrite IH.
Qed.

Lemma substring_all (t : string) : substring 0 (String.length t) t = t.
Proof. induction t as [|a t IH]; simpl; [done|]. by rewrite IH. Qed.

Lemma substring_suffix (s t : string) :
  substring (String.length s) (String.length t) (s +:+ t) = t.
Proof. induction s as [|a s IH]; [apply substring_all|exact IH]. Qed.

Lemma is_data_file_data_file_of nft_id : is_data_file (data_file_of nft_id) = true.
Proof.
  unfold is_data_file, data_file_of. rewrite string_length_app.
  apply andb_true_intro. split.
  - apply Nat.leb_le. simpl. lia.
  - replace (String.length nft_id + String.length "_data.json" - String.length "_data.json")%nat
      with (String.length nft_id) by lia.
    rewrite substring_suffix. apply String.eqb_refl.
Qed.

Lemma metadata_file_ne_data_file nft_id : metadata_file_of nft_id <> data_file_of nft_id.
Proof.
  unfold metadata_file_of, data_file_of. intros H. by apply String.app_inj in H.
Qed.

Lemma data_file_of_inj id1 id2 : data_file_of id1 = data_file_of id2 -> id1 = id2.
Proof. apply string_app_inj_r. Qed.

Lemma data_file_is_metadata_file id1 id2 :
  data_file_of id1 = metadata_file_of id2 -> id2 = id1 +:+ "_data".
Proof.
  unfold data_file_of, metadata_file_of. intros H.
  apply (string_app_inj_r _ _ ".json").
  rewrite <- H. by rewrite string_app_assoc.
Qed.

Lemma has_char_app c (s t : string) :
  has_char c (s +:+ t) = has_char c s || has_char c t.
Proof.
  induction s as [|a s IH]; [done|].
  change (Ascii.eqb a c || has_char c (s +:+ t)
          = Ascii.eqb a c || has_char c s || has_char c t).
  by rewrite IH, orb_assoc.
Qed.

Lemma uuid4_plain E : plain_id (uuid4 E) = true.
Proof. unfold uuid4. by destruct (plain_id (uuid_text E)) eqn:H. Qed.

(** The files of a record have names the file system takes. *)
Lemma record_file_creatable E (suffix : string) :
  has_char nul suffix = false ->
  has_char slash suffix = false ->
  (String.length suffix <= 10)%nat ->
  create_error (uuid4 E +:+ suffix) = None.
Proof.
  intros Hnul Hslash Hlen. pose proof (uuid4_plain E) as H.
  unfold plain_id in H. apply andb_prop in H as [[Hl Hs]%andb_prop Hn].
  apply negb_true_iff in Hs, Hn. apply Nat.leb_le in Hl.
  unfold create_error, name_too_long, NAME_MAX.
  rewrite !has_char_app, Hn, Hs, Hnul, Hslash, string_length_app. simpl.
  by destruct (Nat.ltb_spec 255 (String.length (uuid4 E) + String.length suffix)); [lia|].
Qed.

Lemma stat_error_inv name e : stat_error name = Some e -> e = OSError.
Proof.
  unfold stat_error. destruct (has_char nul name); [done|].
  destruct (name_too_long name); by intros [= <-].
Qed.

Lemma stat_error_short name :
  (String.length name <= 255)%nat -> stat_error name = None.
Proof.
  intros H. unfold stat_error, name_too_long, NAME_MAX.
  destruct (has_char nul name); [done|].
  by destruct (Nat.ltb_spec 255 (String.length name)); [lia|].
Qed.

Lemma data_file_stat E : stat_error (data_file_of (uuid4 E)) = None.
Proof.
  pose proof (record_file_creatable E "_data.json" eq_refl eq_refl) as H.
  unfold create_error, stat_error, data_file_of in *.
  destruct (has_char nul _); [done|].
  destruct (name_too_long _); [|done].
  rewrite orb_true_r in H. by discriminate H; simpl; lia.
Qed.

(** ** A list fact on [omap] *)

Lemma omap_ext_elem {A B : Type} (f g : A -> option B) (l : list A) :
  (forall x, x ∈ l -> f x = g x) -> omap f l = omap g l.
Proof.
  induction l as [|a l IH]; intros H; csimpl; [done|].
  rewrite (H a) by left. rewrite IH; [done|]. intros x Hx. apply H. by right.
Qed.

(** ** The order of strings *)

Lemma ascii_compare_trans c (a b d : Ascii.ascii) :
  Ascii.compare a b = c -> Ascii.compare b d = c -> Ascii.compare a d = c.
Proof.
  unfold Ascii.compare. destruct c; intros H1 H2.
  - apply N.compare_eq_iff in H1, H2. apply N.compare_eq_iff. congruence.
  - rewrite N.compare_lt_iff in *. lia.
  - rewrite N.compare_gt_iff in *. lia.
Qed.

Lemma string_compare_refl s : String.compare s s = Eq.
Proof.
  induction s as [|a s IH]; simpl; [done|].
  unfold Ascii.compare. by rewrite N.compare_refl.
Qed.

Lemma string_compare_lt_trans s1 s2 s3 :
  String.compare s1 s2 = Lt -> String.compare s2 s3 = Lt -> String.compare s1 s3 = Lt.
Proof.
  revert s2 s3. induction s1 as [|a s1 IH]; intros [|b s2] [|c s3]; simpl; try done.
  destruct (Ascii.compare a b) eqn:Hab; try done;
  destruct (Ascii.compare b c) eqn:Hbc; try done; intros H1 H2.
  - apply Ascii.compare_eq_iff in Hab, Hbc. subst.
    rewrite (ascii_compare_trans Eq c c c); eauto.
    all: unfold Ascii.compare; apply N.compare_refl.
  - apply Ascii.compare_eq_iff in Hab. subst. by rewrite Hbc.
  - apply Ascii.compare_eq_iff in Hbc. subst. by rewrite Hab.
  - by rewrite (ascii_compare_trans Lt a b c).
Qed.

Lemma string_leb_trans s1 s2 s3 :
  String.leb s1 s2 = true -> String.leb s2 s3 = true -> String.leb s1 s3 = true.
Proof.
  unfold String.leb.
  destruct (String.compare s1 s2) eqn:H12; try done;
  destruct (String.compare s2 s3) eqn:H23; try done; intros _ _.
  - apply String.compare_eq_iff in H12, H23. subst. by rewrite string_compare_refl.
  - apply String.compare_eq_iff in H12. subst. by rewrite H23.
  - apply String.compare_eq_iff in H23. subst. by rewrite H12.
  - by rewrite (string_compare_lt_trans s1 s2 s3).
Qed.

Lemma string_ltb_leb s1 s2 : String.ltb s1 s2 = true -> String.leb s1 s2 = true.
Proof. unfold String.ltb, String.leb. by destruct (String.compare s1 s2). Qed.

Lemma string_ltb_false_leb s1 s2 : String.ltb s1 s2 = false -> String.leb s2 s1 = true.
Proof.
  unfold String.ltb, String.leb. rewrite (String.compare_antisym s1 s2).
  by destruct (String.compare s2 s1).
Qed.

Lemma string_ltb_neq s1 s2 : String.ltb s1 s2 = true -> s1 <> s2.
Proof.
  unfold String.ltb. intros H ->. by rewrite string_compare_refl in H.
Qed.

(** ** A list fact *)

Lemma omap_length_le {A B : Type} (f : A -> option B) (l : list A) :
  (length (omap f l) <= length l)%nat.
Proof.
  induction l as [|a l IH]; csimpl; [done|].
  destruct (f a); csimpl; lia.
Qed.


(** ** Sorting by string keys *)

Section SortStrings.
Context {R : Runtime} {A : Type} (key : A -> json) (k : A -> string).

Lemma insert_reverse_strings x l :
  key x = JStr (k x) ->
  Forall (fun y => key y = JStr (k y)) l ->
  exists l',
    insert_reverse key x l = Some l' /\
    l' ≡ₚ x :: l /\
    (StronglySorted (descending k) l -> StronglySorted (descending k) l') /\
    forall s, keyed k s l' = keyed k s (x :: l).
Proof.
  intros Hx. induction 1 as [|y l Hy Hl IH]; simpl.
  - exists [x]. repeat split; auto. intros _. repeat constructor.
  - rewrite Hx, Hy. simpl.
    destruct (String.ltb (k x) (k y)) eqn:Hlt.
    + destruct IH as (l' & -> & Hperm & Hsort & Hpick). simpl.
      exists (y :: l'). split; [done|]. split; [|split].
      * rewrite Hperm. apply Permutation_swap.
      * intros Hs. apply StronglySorted_inv in Hs as [Hs Hall].
        constructor; [by apply Hsort|].
        rewrite Hperm. constructor; [|done].
        by apply string_ltb_leb.
      * intros s. unfold keyed in *. simpl. rewrite Hpick. simpl.
        destruct (String.eqb_spec (k y) s) as [<-|]; [|done].
        destruct (String.eqb_spec (k x) (k y)) as [Heq|]; [|done].
        by apply string_ltb_neq in Hlt.
    + exists (x :: y :: l). repeat split; auto.
      intros Hs. constructor; [done|].
      pose proof (string_ltb_false_leb _ _ Hlt) as Hyx.
      apply StronglySorted_inv in Hs as [_ Hall].
      constructor; [done|].
      eapply Forall_impl; [exact Hall|].
      intros z Hz. unfold descending in *. by eapply string_leb_trans.
Qed.

Lemma sort_reverse_strings l :
  Forall (fun y => key y = JStr (k y)) l ->
  exists l',
    sort_reverse key l = Some l' /\
    l' ≡ₚ l /\
    StronglySorted (descending k) l' /\
    forall s, keyed k s l' = keyed k s l.
Proof.
  induction 1 as [|x l Hx Hl IH]; simpl.
  - exists []. repeat split; auto. constructor.
  - destruct IH as (l1 & -> & Hperm & Hsort & Hpick). simpl.
    destruct (insert_reverse_strings x l1 Hx) as (l2 & Hins & Hperm2 & Hsort2 & Hpick2).
    { by rewrite Hperm. }
    exists l2. split; [done|]. split; [|split].
    + by rewrite Hperm2, Hperm.
    + by apply Hsort2.
    + intros s. rewrite Hpick2. unfold keyed in *. simpl. by rewrite Hpick.
Qed.

(** A comparison that raises makes the sort raise. *)
Lemma insert_reverse_length x l l' :
  insert_reverse key x l = Some l' -> length l' = S (length l).
Proof.
  revert l'. induction l as [|y l IH]; simpl; intros l' H.
  - by simplify_eq.
  - destruct (py_lt (key x) (key y)) as [[]|]; simplify_eq/=; [|done].
    destruct (insert_reverse key x l) as [l1|]; simplify_eq/=.
    by rewrite (IH l1).
Qed.

Lemma sort_reverse_length l l' :
  sort_reverse key l = Some l' -> length l' = length l.
Proof.
  revert l'. induction l as [|x l IH]; simpl; intros l' H.
  - by simplify_eq.
  - destruct (sort_reverse key l) as [l1|]; simplify_eq/=.
    rewrite (insert_reverse_length _ _ _ H). by rewrite (IH l1).
Qed.

End SortStrings.


Section Runs.
Context {R : Runtime}.

(** ** How the read handlers run *)

Lemma get_nft_run nft_id w :
  get_nft nft_id w =
    (match dir_lookup (data_file_of nft_id) (metadata_dir w) with
     | None =>
         match stat_error (data_file_of nft_id) with
         | Some e => Raise (HTTPException 500 ("Error retrieving NFT: " +:+ exn_str e))
         | None => Raise (HTTPException 404 "NFT not found")
         end
     | Some text =>
         match json_loads text with
         | None =>
             Raise (HTTPException 500 ("Error retrieving NFT: " +:+ exn_str JSONDecodeError))
         | Some (JObj d) =>
             match NFTResponse_validate d with
             | Some r => Return r
             | None =>
                 Raise (HTTPException 500 ("Error retrieving NFT: " +:+ exn_str ValidationError))
             end
         | Some _ =>
             Raise (HTTPException 500 ("Error retrieving NFT: " +:+ exn_str TypeError))
         end
     end, w).
Proof.
  unfold get_nft, data_file_of. unfold_monad. run.
  destruct (dir_lookup _ _) as [text|] eqn:Hfile; simpl; rewrite ?Hfile; simpl;
    [|destruct (stat_error _) as [e|] eqn:He; [apply stat_error_inv in He as ->|]; done].
  destruct (json_loads text) as [[| | | | | |d]|]; simpl; try done.
  by destruct (NFTResponse_validate d).
Qed.

Lemma load_all_run w files acc :
  load_all files acc w =
    (Return (acc ++ omap (fun name => dir_lookup name (metadata_dir w) ≫= parse_record) files), w).
Proof.
  revert acc. induction files as [|name files IH]; intros acc; simpl.
  - unfold ret. by rewrite app_nil_r.
  - unfold bind at 1. unfold try_except at 1. unfold_monad. run.
    unfold parse_record at 1.
    destruct (dir_lookup name (metadata_dir w)) as [text|]; simpl; [|apply IH].
    destruct (json_loads text) as [[| | | | | |d]|]; simpl; try apply IH.
    destruct (NFTResponse_validate d) as [r|]; simpl; [|apply IH].
    rewrite IH. by rewrite <- app_assoc.
Qed.

Lemma list_all_nfts_run w :
  list_all_nfts w =
    (match sort_reverse name_key (parsed_records w) with
     | Some sorted => Return {| nfts := sorted; total_count := Z.of_nat (length sorted) |}
     | None => Raise (HTTPException 500 ("Error listing NFTs: " +:+ exn_str TypeError))
     end, w).
Proof.
  unfold list_all_nfts, try_except, bind at 1, glob_data_files.
  unfold bind at 1. rewrite load_all_run. simpl.
  fold (data_files w). fold (parsed_records w).
  by destruct (sort_reverse name_key (parsed_records w)).
Qed.


Lemma validate_nft_data_doc i c m md :
  NFTResponse_validate (nft_data_doc i c m md) =
    match c with
    | Some cid => Some {| nft_id := i; content_cid := cid; metadata_cid := m; metadata := md |}
    | None => None
    end.
Proof.
  unfold NFTResponse_validate, nft_data_doc.
  destruct c; by simplify_map_eq.
Qed.

(** ** How the upload handler runs *)

Lemma metadata_file_writable E d : write_error (uuid4 E +:+ ".json") d = None.
Proof.
  unfold write_error. destruct (dir_lookup _ d); [done|].
  apply record_file_creatable; [done|done|simpl; lia].
Qed.

Lemma data_file_writable E d : write_error (uuid4 E +:+ "_data.json") d = None.
Proof.
  unfold write_error. destruct (dir_lookup _ d); [done|].
  apply record_file_creatable; [done|done|simpl; lia].
Qed.

Lemma write_error_creatable name d : creatable name = true -> write_error name d = None.
Proof.
  unfold creatable, write_error. destruct (dir_lookup name d); [done|].
  by destruct (create_error name).
Qed.

Lemma write_error_absent name d e : write_error name d = Some e -> dir_lookup name d = None.
Proof. unfold write_error. by destruct (dir_lookup name d). Qed.

(** The create handler follows its outline. *)
Lemma upload_to_ipfs_outline E file name description attributes w :
  upload_to_ipfs E file name description attributes w
    = upload_outline E file name description attributes w.
Proof.
  unfold upload_outline, upload_finish_outline, temp_file_of, metadata_file_of, data_file_of.
  unfold upload_to_ipfs, upload_body, upload_except, upload_finally, read_attributes.
  unfold_monad.
  destruct attributes as [a|];
    [destruct (truthy (JStr a)); [destruct (json_loads a) as [attrs|]|]|];
    run; try done;
    (destruct (ipfs_connect E); run; [|done]);
    (destruct file as [f|]; run).
  all: try (destruct (write_error (uuid4 E +:+ "_" +:+ filename f) _) as [e|];
            run; [done|]; rewrite ?dir_lookup_write; run).
  all: try (destruct (ipfs_add E (uuid4 E +:+ "_" +:+ filename f) _) as [cid|];
            run; rewrite ?dir_lookup_write; run; [|done]).
  all: rewrite ?metadata_file_writable; run; rewrite ?dir_lookup_write; run.
  all: destruct (ipfs_add E (uuid4 E +:+ ".json") _) as [mcid|]; run; [|done].
  all: rewrite ?data_file_writable; run.
  all: match goal with
       | |- context [NFTResponse_validate ?d] =>
           match d with
           | <["metadata" := JObj ?md]> (<["metadata_cid" := JStr ?m]>
               (<["content_cid" := of_opt_str ?c]> (<["nft_id" := JStr ?i]> ∅))) =>
               change d with (nft_data_doc i c m md);
               rewrite (validate_nft_data_doc i c m md)
           end
       end; run; done.
Qed.

Lemma upload_success_inv E file name description attributes w r w' :
  upload_to_ipfs E file name description attributes w = (Return r, w') ->
  exists f attrs cid mcid,
    file = Some f /\
    read_attributes attributes = Some attrs /\
    ipfs_connect E = true /\
    ipfs_add E (uuid4 E +:+ "_" +:+ filename f) (file_content f) = Some cid /\
    r = {| nft_id := uuid4 E; content_cid := cid; metadata_cid := mcid;
           metadata := metadata_with_file name description attrs f cid |} /\
    metadata_dir w' =
      dir_write (slot_of E (data_file_of (uuid4 E))) (data_file_of (uuid4 E))
        (json_dumps (JObj (record_doc r)))
        (dir_write (slot_of E (metadata_file_of (uuid4 E))) (metadata_file_of (uuid4 E))
           (json_dumps (JObj (metadata_with_file name description attrs f cid)))
           (metadata_dir w)).
Proof.
  rewrite upload_to_ipfs_outline. unfold upload_outline, upload_finish_outline.
  destruct (read_attributes attributes) as [attrs|]; [|done].
  destruct (ipfs_connect E); [|done].
  destruct file as [f|].
  - destruct (write_error _ _); [done|].
    destruct (ipfs_add E (temp_file_of _ _) _) as [cid|] eqn:Hadd; [|done].
    destruct (ipfs_add E (metadata_file_of _) _) as [mcid|]; [|done].
    intros [= <- <-]. by eexists f, attrs, cid, mcid.
  - by destruct (ipfs_add E (metadata_file_of _) _).
Qed.

Lemma generate_qr_code_run nft_id w :
  generate_qr_code nft_id w =
    (match dir_lookup (data_file_of nft_id) (metadata_dir w) with
     | None =>
         match stat_error (data_file_of nft_id) with
         | Some e => Raise (HTTPException 500 ("Error generating QR code: " +:+ exn_str e))
         | None => Raise (HTTPException 404 "NFT not found")
         end
     | Some text =>
         match json_loads text with
         | None =>
             Raise (HTTPException 500 ("Error generating QR code: " +:+ exn_str JSONDecodeError))
         | Some (JObj d) => qr_response ("ipfs://" +:+ py_format (qr_cid d))
         | Some _ =>
             Raise (HTTPException 500 ("Error generating QR code: " +:+ exn_str AttributeError))
         end
     end, w).
Proof.
  unfold generate_qr_code, qr_except, qr_response, qr_cid, data_file_of. unfold_monad. run.
  destruct (dir_lookup _ _) as [text|] eqn:Hfile; simpl; rewrite ?Hfile; simpl;
    [|destruct (stat_error _) as [e|] eqn:He; [apply stat_error_inv in He as ->|]; done].
  destruct (json_loads text) as [[| | | | | |d]|]; simpl; try done.
  destruct (truthy (dict_get "content_cid" d)); simpl;
    by destruct (qrcode_png _).
Qed.

Lemma generate_gateway_qr_code_run nft_id gateway w :
  generate_gateway_qr_code nft_id gateway w =
    (match dir_lookup (data_file_of nft_id) (metadata_dir w) with
     | None =>
         match stat_error (data_file_of nft_id) with
         | Some e => Raise (HTTPException 500 ("Error generating QR code: " +:+ exn_str e))
         | None => Raise (HTTPException 404 "NFT not found")
         end
     | Some text =>
         match json_loads text with
         | None =>
             Raise (HTTPException 500 ("Error generating QR code: " +:+ exn_str JSONDecodeError))
         | Some (JObj d) =>
             qr_response ("https://" +:+ gateway +:+ "/ipfs/" +:+ py_format (qr_cid d))
         | Some _ =>
             Raise (HTTPException 500 ("Error generating QR code: " +:+ exn_str AttributeError))
         end
     end, w).
Proof.
  unfold generate_gateway_qr_code, qr_except, qr_response, qr_cid, data_file_of. unfold_monad. run.
  destruct (dir_lookup _ _) as [text|] eqn:Hfile; simpl; rewrite ?Hfile; simpl;
    [|destruct (stat_error _) as [e|] eqn:He; [apply stat_error_inv in He as ->|]; done].
  destruct (json_loads text) as [[| | | | | |d]|]; simpl; try done.
  destruct (truthy (dict_get "content_cid" d)); simpl;
    by destruct (qrcode_png _).
Qed.

Lemma health_check_store E w :
  metadata_dir (snd (health_check E w)) = metadata_dir w /\
  uploads_dir (snd (health_check E w)) = uploads_dir w.
Proof.
  unfold health_check. unfold_monad. by destruct (ipfs_connect E).
Qed.

(** A create request whose attributes do not parse stops before the first
    effect. *)
Lemma upload_bad_attributes_run E file name description a w :
  a <> "" ->
  json_loads a = None ->
  upload_to_ipfs E file name description (Some a) w =
    (Raise (HTTPException 500
              ("Error uploading to IPFS: "
               +:+ exn_str (HTTPException 400 "Invalid attributes JSON format"))), w).
Proof.
  intros Ha Hparse. rewrite upload_to_ipfs_outline. unfold upload_outline, read_attributes.
  simpl. destruct (String.eqb_spec a ""); [done|]. simpl. by rewrite Hparse.
Qed.

(** A create request that finds the node down stops there. *)
Lemma upload_node_down_run E file name description attributes w attrs :
  read_attributes attributes = Some attrs ->
  ipfs_connect E = false ->
  upload_to_ipfs E file name description attributes w =
    (Raise (HTTPException 500
              ("Error uploading to IPFS: "
               +:+ exn_str (HTTPException 503 "IPFS connection failed"))), w).
Proof.
  intros Hattrs Hdown. rewrite upload_to_ipfs_outline. unfold upload_outline.
  by rewrite Hattrs, Hdown.
Qed.

(** Whatever happens, the create handler returns a record or raises the
    500 of its [except] clause. *)
Lemma upload_outcome E file name description attributes w :
  (exists r, fst (upload_to_ipfs E file name description attributes w) = Return r) \/
  (exists detail, fst (upload_to_ipfs E file name description attributes w)
                  = Raise (HTTPException 500 detail)).
Proof.
  rewrite upload_to_ipfs_outline. unfold upload_outline, upload_finish_outline.
  destruct (read_attributes attributes) as [attrs|]; [|by right; eexists].
  destruct (ipfs_connect E); [|by right; eexists].
  destruct file as [f|].
  - destruct (write_error _ _); [by right; eexists|].
    destruct (ipfs_add E (temp_file_of _ _) _) as [cid|]; [|by right; eexists].
    destruct (ipfs_add E (metadata_file_of _) _) as [mcid|]; [by left; eexists|by right; eexists].
  - destruct (ipfs_add E (metadata_file_of _) _) as [mcid|]; by right; eexists.
Qed.

(** Without a file the response model refuses the record: its
    [content_cid] would be [None]. *)
Lemma upload_without_file_outcome E name description attributes w :
  exists detail, fst (upload_to_ipfs E None name description attributes w)
                 = Raise (HTTPException 500 detail).
Proof.
  destruct (upload_outcome E None name description attributes w) as [[r H]|H]; [|done].
  destruct (upload_to_ipfs E None name description attributes w) as [o w'] eqn:Hrun.
  simpl in H. subst o.
  by apply upload_success_inv in Hrun as (f & ? & ? & ? & ? & _).
Qed.

End Runs.


(** ** The claims *)

Section Claims.
Context {R : Runtime}.

(** C2.  Let a create request succeed against a storage client whose
    identifiers are not empty.  If it carries a file, the [content_cid] of
    the returned record is the identifier the client gave for the uploaded
    bytes, it is not empty, the metadata maps [image] to the text [ipfs://]
    followed by it, and the metadata has the key [content_type].  Whether
    or not the request carries a file, the record has a non-empty
    [content_cid] exactly when its metadata has [image], and exactly when
    it has [content_type]. *)
Theorem upload_with_file_sets_content_fields E file name description attributes w r w' :
  cids_nonempty E ->
  upload_to_ipfs E file name description attributes w = (Return r, w') ->
  (forall f, file = Some f ->
     ipfs_add E (uuid4 E +:+ "_" +:+ filename f) (file_content f) = Some (content_cid r) /\
     content_cid r <> "" /\
     metadata r !! "image" = Some (JStr ("ipfs://" +:+ content_cid r)) /\
     is_Some (metadata r !! "content_type")) /\
  (content_cid r <> "" <-> is_Some (metadata r !! "image")) /\
  (content_cid r <> "" <-> is_Some (metadata r !! "content_type")).
Proof.
  intros Hcid Hrun.
  apply upload_success_inv in Hrun as (f & attrs & cid & mcid & -> & _ & _ & Hadd & -> & _).
  pose proof (Hcid _ _ _ Hadd) as Hne. unfold metadata_with_file. simpl.
  rewrite lookup_insert_ne, !lookup_insert_eq by done.
  split; [intros f' [= <-]|]; repeat split; eauto.
Qed.

(** C3.  After a create request that succeeded with the record [r],
    [get_nft] on the id of [r] returns [r] again and changes nothing,
    provided [json.load] reads back the document of [r] from the text
    [json.dump] wrote for it. *)
Theorem get_nft_after_upload E file name description attributes w r w' :
  upload_to_ipfs E file name description attributes w = (Return r, w') ->
  json_loads (json_dumps (JObj (record_doc r))) = Some (JObj (record_doc r)) ->
  get_nft (nft_id r) w' = (Return r, w').
Proof.
  intros Hrun Hcodec.
  apply upload_success_inv in Hrun as (f & attrs & cid & mcid & _ & _ & _ & _ & Hr & Hdir).
  rewrite get_nft_run.
  replace (nft_id r) with (uuid4 E) by (by rewrite Hr).
  rewrite Hdir, dir_lookup_write, Hcodec.
  unfold record_doc. rewrite validate_nft_data_doc. by destruct r.
Qed.

(** C4, amended.  For every state of the record store in which the name
    of each parseable record is a string when it is present, the listing
    answers with the parseable records sorted by descending name, a record
    without a name counting as the empty string, and records of one name
    in the order of the enumeration. *)
Theorem listing_sorted_when_names_are_strings w :
  string_names (parsed_records w) -> listing_sorted_stable w.
Proof.
  intros Hnames. unfold listing_sorted_stable. rewrite list_all_nfts_run.
  destruct (sort_reverse_strings name_key name_str (parsed_records w))
    as (sorted & -> & Hperm & Hsort & Hstable).
  { unfold string_names in Hnames. rewrite forallb_forall in Hnames.
    apply List.Forall_forall. intros r Hr. specialize (Hnames r Hr).
    unfold string_named, name_key, name_str in *.
    destruct (metadata r !! "name") as [[]|]; done. }
  by eexists.
Qed.

(** C6, amended.  A create request whose attributes string is not empty
    and fails to parse as JSON raises and leaves the world as it was: no
    call to the storage client, no write to the record store.  Afterwards
    the listing is what it was, and [get_nft] on the id drawn for the
    request answers 404 when the store held no data file of that id. *)
Theorem upload_bad_attributes_leaves_no_trace E file name description a w :
  a <> "" ->
  json_loads a = None ->
  rejected_without_trace E file name description (Some a) w /\
  (forall o w', upload_to_ipfs E file name description (Some a) w = (o, w') ->
     list_all_nfts w' = list_all_nfts w /\
     (dir_lookup (data_file_of (uuid4 E)) (metadata_dir w) = None ->
        get_nft (uuid4 E) w' = (Raise (HTTPException 404 "NFT not found"), w'))).
Proof.
  intros Ha Hparse. unfold rejected_without_trace.
  rewrite (upload_bad_attributes_run E file name description a w Ha Hparse).
  split; [by eexists|].
  intros o w' [= <- <-]. split; [done|].
  intros Hfresh. by rewrite get_nft_run, Hfresh, data_file_stat.
Qed.

(** C7, amended.  For an id whose data file name is at most 255 bytes
    long and which has no data file, both QR handlers answer 404.  For a
    stored record whose [content_cid] is a non-empty string the QR code
    encodes [ipfs://] followed by it, and with a gateway host the text
    [https://], the host, [/ipfs/] and it.  For a stored record whose
    [content_cid] is missing, null or the empty string the same holds with
    its [metadata_cid]. *)
Theorem qr_target nft_id gateway w :
  ((String.length (data_file_of nft_id) <= 255)%nat ->
   dir_lookup (data_file_of nft_id) (metadata_dir w) = None ->
     generate_qr_code nft_id w = (Raise (HTTPException 404 "NFT not found"), w) /\
     generate_gateway_qr_code nft_id gateway w
       = (Raise (HTTPException 404 "NFT not found"), w)) /\
  (forall d c,
     stored w nft_id d -> d !! "content_cid" = Some (JStr c) -> c <> "" ->
     generate_qr_code nft_id w = (qr_response ("ipfs://" +:+ c), w) /\
     generate_gateway_qr_code nft_id gateway w
       = (qr_response ("https://" +:+ gateway +:+ "/ipfs/" +:+ c), w)) /\
  (forall d m,
     stored w nft_id d ->
     d !! "content_cid" = None \/ d !! "content_cid" = Some JNull \/
       d !! "content_cid" = Some (JStr "") ->
     d !! "metadata_cid" = Some (JStr m) ->
     generate_qr_code nft_id w = (qr_response ("ipfs://" +:+ m), w) /\
     generate_gateway_qr_code nft_id gateway w
       = (qr_response ("https://" +:+ gateway +:+ "/ipfs/" +:+ m), w)).
Proof.
  rewrite generate_qr_code_run, generate_gateway_qr_code_run.
  split; [|split].
  - intros Hlen ->. by rewrite (stat_error_short _ Hlen).
  - intros d c (text & -> & ->) Hc Hne.
    unfold qr_cid, dict_get. rewrite Hc. simpl.
    by destruct (String.eqb_spec c "").
  - intros d m (text & -> & ->) Hc Hm.
    unfold qr_cid, dict_get. rewrite Hm.
    by destruct Hc as [-> | [-> | ->]].
Qed.

(** C8, amended.  For an id whose data file name is at most 255 bytes
    long, [get_nft] answers 404 exactly when the store has no data file of
    the id; when the file exists and its text is not JSON, the answer is
    the 500 that wraps the decode error. *)
Theorem get_nft_not_found_iff nft_id w :
  (String.length (data_file_of nft_id) <= 255)%nat ->
  (http_status (fst (get_nft nft_id w)) = 404 <->
     dir_lookup (data_file_of nft_id) (metadata_dir w) = None) /\
  (forall text,
     dir_lookup (data_file_of nft_id) (metadata_dir w) = Some text ->
     json_loads text = None ->
     fst (get_nft nft_id w)
       = Raise (HTTPException 500 ("Error retrieving NFT: " +:+ exn_str JSONDecodeError))).
Proof.
  intros Hlen. rewrite get_nft_run, (stat_error_short _ Hlen). split.
  - destruct (dir_lookup _ _) as [text|]; simpl; [|done].
    split; [|done].
    destruct (json_loads text) as [[| | | | | |d]|]; simpl; try done.
    by destruct (NFTResponse_validate d).
  - by intros text -> ->.
Qed.

(** C9.  In every listing response [total_count] is the length of
    [nfts], which is the number of data files that parsed and validated;
    files that were skipped count in neither. *)
Theorem listing_total_count w resp w' :
  list_all_nfts w = (Return resp, w') ->
  total_count resp = Z.of_nat (length (nfts resp)) /\
  length (nfts resp) = length (parsed_records w) /\
  (length (parsed_records w) <= length (data_files w))%nat.
Proof.
  rewrite list_all_nfts_run.
  destruct (sort_reverse name_key (parsed_records w)) as [sorted|] eqn:Hsort; [|done].
  intros [= <- _]. simpl. split; [done|]. split.
  - by apply sort_reverse_length in Hsort.
  - unfold parsed_records. apply omap_length_le.
Qed.

(** C10.  [get_nft], [list_all_nfts] and the two QR handlers leave the
    whole world as it was, and [health_check] leaves the record store as
    it was, whatever their arguments. *)
Theorem read_handlers_keep_store E nft_id gateway w :
  snd (get_nft nft_id w) = w /\
  snd (list_all_nfts w) = w /\
  snd (generate_qr_code nft_id w) = w /\
  snd (generate_gateway_qr_code nft_id gateway w) = w /\
  metadata_dir (snd (health_check E w)) = metadata_dir w.
Proof.
  rewrite get_nft_run, list_all_nfts_run, generate_qr_code_run, generate_gateway_qr_code_run.
  repeat split. apply health_check_store.
Qed.

End Claims.


(** ** The handlers at work *)

Section Examples.
Import Fixture.

(** The identifiers the fixture's node hands out are not empty. *)
Lemma node_up_cids_nonempty id : cids_nonempty (node_up id).
Proof.
  intros path content cid. simpl.
  destruct (String.eqb path (id +:+ ".json")); by intros [= <-].
Defined.

(** C1.  The handler run on a request whose attributes are not JSON, and
    on a request made while the node refuses the connection: both answers
    are 500, the 400 and the 503 raised in the body surviving only as the
    detail text. *)
Theorem upload_rejections_answer_500 :
  upload_to_ipfs (node_up "id-1") (Some png_file) "Art1" "d" (Some "{bad") empty_world
    = (Raise (HTTPException 500 "Error uploading to IPFS: Invalid attributes JSON format"),
       empty_world) /\
  upload_to_ipfs (node_down "id-1") (Some png_file) "Art1" "d" (Some "[]") empty_world
    = (Raise (HTTPException 500 "Error uploading to IPFS: IPFS connection failed"),
       empty_world).
Proof. split; reflexivity. Qed.

(** C5.  The handler run on a request without a file, the node being up:
    both files of the record are written and the answer is 500, the
    response model having refused a [content_cid] that is [None]. *)
Theorem upload_without_file_answers_500 :
  upload_to_ipfs (node_up "id-2") None "Art2" "d" None empty_world
    = (Raise (HTTPException 500 "Error uploading to IPFS: ValidationError"), after_art2).
Proof. vm_compute. reflexivity. Qed.

(** C2 at the request that creates [Art1] in the empty world. *)
Lemma upload_with_file_witness :
  cids_nonempty (node_up "id-1") /\
  upload_to_ipfs (node_up "id-1") (Some png_file) "Art1" "d" (Some "[]") empty_world
    = (Return record_art1, after_art1) /\
  (forall f, Some png_file = Some f ->
     ipfs_add (node_up "id-1") (uuid4 (node_up "id-1") +:+ "_" +:+ filename f)
       (file_content f) = Some (content_cid record_art1) /\
     content_cid record_art1 <> "" /\
     metadata record_art1 !! "image" = Some (JStr ("ipfs://" +:+ content_cid record_art1)) /\
     is_Some (metadata record_art1 !! "content_type")) /\
  (content_cid record_art1 <> "" <-> is_Some (metadata record_art1 !! "image")) /\
  (content_cid record_art1 <> "" <-> is_Some (metadata record_art1 !! "content_type")).
Proof.
  assert (Hrun : upload_to_ipfs (node_up "id-1") (Some png_file) "Art1" "d" (Some "[]")
                   empty_world = (Return record_art1, after_art1))
    by (vm_compute; reflexivity).
  split; [apply node_up_cids_nonempty|]. split; [exact Hrun|].
  exact (upload_with_file_sets_content_fields _ _ _ _ _ _ _ _
           (node_up_cids_nonempty "id-1") Hrun).
Defined.

(** C3 at the request that creates [Art1] in the empty world. *)
Lemma get_nft_after_upload_witness :
  upload_to_ipfs (node_up "id-1") (Some png_file) "Art1" "d" (Some "[]") empty_world
    = (Return record_art1, after_art1) /\
  json_loads (json_dumps (JObj (record_doc record_art1))) = Some (JObj (record_doc record_art1)) /\
  get_nft (nft_id record_art1) after_art1 = (Return record_art1, after_art1).
Proof.
  assert (Hrun : upload_to_ipfs (node_up "id-1") (Some png_file) "Art1" "d" (Some "[]")
                   empty_world = (Return record_art1, after_art1))
    by (vm_compute; reflexivity).
  assert (Hcodec : json_loads (json_dumps (JObj (record_doc record_art1)))
                   = Some (JObj (record_doc record_art1)))
    by (vm_compute; reflexivity).
  split; [exact Hrun|]. split; [exact Hcodec|].
  exact (get_nft_after_upload _ _ _ _ _ _ _ _ Hrun Hcodec).
Defined.

(** C4 as stated fails on the store [mixed_names]: one name is a string,
    the other is null, the comparison raises [TypeError] and the listing
    answers 500. *)
Lemma listing_fails_on_mixed_names :
  parsed_records mixed_names = [record_art1; record_null_name] /\
  list_all_nfts mixed_names
    = (Raise (HTTPException 500 "Error listing NFTs: TypeError"), mixed_names) /\
  ~ listing_sorted_stable mixed_names.
Proof.
  split; [vm_compute; reflexivity|]. split; [vm_compute; reflexivity|].
  intros (resp & Hresp & _). vm_compute in Hresp. discriminate Hresp.
Qed.

(** C4, amended, at the gallery. *)
Lemma listing_sorted_witness :
  string_names (parsed_records gallery) /\ listing_sorted_stable gallery.
Proof.
  assert (Hnames : string_names (parsed_records gallery)) by (vm_compute; reflexivity).
  split; [exact Hnames|].
  exact (listing_sorted_when_names_are_strings gallery Hnames).
Defined.

(** The gallery is listed as [Art1], [Art1] (in enumeration order),
    [Art0] and the unnamed record; the broken file and the record without
    [content_cid] are skipped. *)
Example gallery_listing_order :
  list_all_nfts gallery = (Return gallery_listing, gallery).
Proof. vm_compute. reflexivity. Qed.

(** C6 as stated fails on the empty attributes string: it is not JSON,
    yet the handler skips it, uploads and writes the record. *)
Lemma empty_attributes_are_not_rejected :
  json_loads "" = None /\
  upload_to_ipfs (node_up "id-1") (Some png_file) "Art1" "d" (Some "") empty_world
    = (Return record_art1, after_art1) /\
  ~ rejected_without_trace (node_up "id-1") (Some png_file) "Art1" "d" (Some "") empty_world.
Proof.
  split; [reflexivity|]. split; [vm_compute; reflexivity|].
  intros [e He]. vm_compute in He. discriminate He.
Qed.

(** C6, amended, at a request with malformed attributes made to the
    gallery. *)
Lemma upload_bad_attributes_witness :
  "{bad" <> "" /\
  json_loads "{bad" = None /\
  rejected_without_trace (node_up "id-9") (Some png_file) "Art1" "d" (Some "{bad") gallery /\
  (forall o w',
     upload_to_ipfs (node_up "id-9") (Some png_file) "Art1" "d" (Some "{bad") gallery = (o, w') ->
     list_all_nfts w' = list_all_nfts gallery /\
     (dir_lookup (data_file_of (uuid4 (node_up "id-9"))) (metadata_dir gallery) = None ->
        get_nft (uuid4 (node_up "id-9")) w' = (Raise (HTTPException 404 "NFT not found"), w'))).
Proof.
  assert (Hne : "{bad" <> "") by discriminate.
  assert (Hparse : json_loads "{bad" = None) by reflexivity.
  split; [exact Hne|]. split; [exact Hparse|].
  exact (upload_bad_attributes_leaves_no_trace (node_up "id-9") (Some png_file)
           "Art1" "d" "{bad" gallery Hne Hparse).
Defined.

(** C7 as stated fails twice.  For the id [long_id] there is no stored
    record, yet both QR handlers answer 500: [exists] raises on the name
    of its data file, which is 256 bytes long.  And the record of the
    store [blank_cid_store] has a [content_cid], the empty string, yet its
    QR code encodes its [metadata_cid]. *)
Lemma qr_target_fails_on_long_id_and_blank_cid :
  String.length (data_file_of Scenes.long_id) = 256%nat /\
  dir_lookup (data_file_of Scenes.long_id) (metadata_dir gallery) = None /\
  generate_qr_code Scenes.long_id gallery
    = (Raise (HTTPException 500 "Error generating QR code: OSError"), gallery) /\
  generate_gateway_qr_code Scenes.long_id "ipfs.io" gallery
    = (Raise (HTTPException 500 "Error generating QR code: OSError"), gallery) /\
  stored (R := Scenes.runtime) Scenes.blank_cid_store "id-6"
    (record_doc Scenes.record_blank_cid) /\
  record_doc Scenes.record_blank_cid !! "content_cid" = Some (JStr "") /\
  generate_qr_code (R := Scenes.runtime) "id-6" Scenes.blank_cid_store
    = (Return {| body := "PNG of ipfs://QmBlankMeta"; media_type := "image/png" |},
       Scenes.blank_cid_store).
Proof.
  split; [vm_compute; reflexivity|]. split; [vm_compute; reflexivity|].
  split; [vm_compute; reflexivity|]. split; [vm_compute; reflexivity|].
  split; [exists "record id-6"; split; vm_compute; reflexivity|].
  split; vm_compute; reflexivity.
Qed.

(** C7, amended, at the gallery: a record with content, the record
    written without a file, and an id that is not stored. *)
Lemma qr_target_witness :
  generate_qr_code "id-1" gallery
    = (Return {| body := "PNG of ipfs://QmFile"; media_type := "image/png" |}, gallery) /\
  generate_gateway_qr_code "id-1" "ipfs.io" gallery
    = (Return {| body := "PNG of https://ipfs.io/ipfs/QmFile"; media_type := "image/png" |},
       gallery) /\
  generate_qr_code "id-2" gallery
    = (Return {| body := "PNG of ipfs://QmMeta"; media_type := "image/png" |}, gallery) /\
  generate_gateway_qr_code "id-2" "ipfs.io" gallery
    = (Return {| body := "PNG of https://ipfs.io/ipfs/QmMeta"; media_type := "image/png" |},
       gallery) /\
  generate_qr_code "id-9" gallery = (Raise (HTTPException 404 "NFT not found"), gallery) /\
  generate_gateway_qr_code "id-9" "ipfs.io" gallery
    = (Raise (HTTPException 404 "NFT not found"), gallery).
Proof.
  assert (H1 : stored gallery "id-1" (record_doc record_art1))
    by (exists "record id-1"; split; reflexivity).
  assert (H2 : stored gallery "id-2" doc_art2)
    by (exists "record id-2"; split; reflexivity).
  destruct (qr_target "id-1" "ipfs.io" gallery) as (_ & Hcontent & _).
  destruct (qr_target "id-2" "ipfs.io" gallery) as (_ & _ & Hmeta).
  destruct (qr_target "id-9" "ipfs.io" gallery) as (Hmissing & _ & _).
  destruct (Hcontent (record_doc record_art1) "QmFile" H1) as [Ha Hb];
    [reflexivity|discriminate|].
  destruct (Hmeta doc_art2 "QmMeta" H2) as [Hc Hd];
    [right; left; reflexivity|reflexivity|].
  destruct Hmissing as [He Hf]; [vm_compute; lia|reflexivity|].
  exact (conj Ha (conj Hb (conj Hc (conj Hd (conj He Hf))))).
Defined.

(** C8 as stated fails on the id [long_id]: the store has no data file
    of it, yet [get_nft] answers 500, [exists] having raised on the name
    of the data file, which is 256 bytes long. *)
Lemma get_nft_long_id_answers_500 :
  String.length (data_file_of Scenes.long_id) = 256%nat /\
  dir_lookup (data_file_of Scenes.long_id) (metadata_dir gallery) = None /\
  get_nft Scenes.long_id gallery
    = (Raise (HTTPException 500 "Error retrieving NFT: OSError"), gallery) /\
  http_status (fst (get_nft Scenes.long_id gallery)) <> 404.
Proof.
  split; [vm_compute; reflexivity|]. split; [vm_compute; reflexivity|].
  split; [vm_compute; reflexivity|]. vm_compute. discriminate.
Qed.

(** C8, amended, at the gallery: an id that is not stored, and the broken
    file. *)
Lemma get_nft_not_found_witness :
  (String.length (data_file_of "id-9") <= 255)%nat /\
  (String.length (data_file_of "broken") <= 255)%nat /\
  http_status (fst (get_nft "id-9" gallery)) = 404 /\
  fst (get_nft "broken" gallery)
    = Raise (HTTPException 500 "Error retrieving NFT: JSONDecodeError").
Proof.
  assert (H9 : (String.length (data_file_of "id-9") <= 255)%nat) by (vm_compute; lia).
  assert (Hb : (String.length (data_file_of "broken") <= 255)%nat) by (vm_compute; lia).
  destruct (get_nft_not_found_iff "id-9" gallery H9) as [[_ Hmissing] _].
  destruct (get_nft_not_found_iff "broken" gallery Hb) as [_ Hbroken].
  split; [exact H9|]. split; [exact Hb|]. split.
  - apply Hmissing. reflexivity.
  - apply (Hbroken "{bad"); reflexivity.
Defined.

(** C9 at the gallery: six data files, four records, [total_count] 4. *)
Lemma listing_total_count_witness :
  list_all_nfts gallery = (Return gallery_listing, gallery) /\
  total_count gallery_listing = 4 /\
  length (parsed_records gallery) = 4%nat /\
  length (data_files gallery) = 6%nat /\
  (total_count gallery_listing = Z.of_nat (length (nfts gallery_listing)) /\
   length (nfts gallery_listing) = length (parsed_records gallery) /\
   (length (parsed_records gallery) <= length (data_files gallery))%nat).
Proof.
  assert (Hrun : list_all_nfts gallery = (Return gallery_listing, gallery))
    by (vm_compute; reflexivity).
  split; [exact Hrun|]. split; [reflexivity|].
  split; [vm_compute; reflexivity|]. split; [vm_compute; reflexivity|].
  exact (listing_total_count gallery gallery_listing gallery Hrun).
Defined.

End Examples.

(** * Further properties *)

Section MoreRuns.
Context {R : Runtime}.

(** Whatever the keys, a sort that returns permutes its input. *)
Lemma insert_reverse_perm {A : Type} (key : A -> json) x (l l' : list A) :
  insert_reverse key x l = Some l' -> l' ≡ₚ x :: l.
Proof.
  revert l'. induction l as [|y l IH]; simpl; intros l' H.
  - by simplify_eq.
  - destruct (py_lt (key x) (key y)) as [[]|]; simplify_eq/=; [|done].
    destruct (insert_reverse key x l) as [l1|]; simplify_eq/=.
    rewrite (IH l1 eq_refl). apply Permutation_swap.
Qed.

Lemma sort_reverse_perm {A : Type} (key : A -> json) (l l' : list A) :
  sort_reverse key l = Some l' -> l' ≡ₚ l.
Proof.
  revert l'. induction l as [|x l IH]; simpl; intros l' H.
  - by simplify_eq.
  - destruct (sort_reverse key l) as [l1|]; simplify_eq/=.
    rewrite (insert_reverse_perm _ _ _ _ H). by rewrite (IH l1).
Qed.

(** The files of the record store a create request may write. *)
Lemma upload_metadata_dir_other E file name description attributes w other :
  other <> metadata_file_of (uuid4 E) ->
  other <> data_file_of (uuid4 E) ->
  dir_lookup other (metadata_dir (snd (upload_to_ipfs E file name description attributes w)))
    = dir_lookup other (metadata_dir w).
Proof.
  intros Hm Hd. rewrite upload_to_ipfs_outline.
  unfold upload_outline, upload_finish_outline.
  destruct (read_attributes attributes) as [attrs|]; [|done].
  destruct (ipfs_connect E); [|done].
  destruct file as [f|];
    [destruct (write_error _ _); [done|];
     destruct (ipfs_add E (temp_file_of _ _) _) as [cid|]; [|done]|];
    (destruct (ipfs_add E (metadata_file_of _) _) as [mcid|]; run;
     rewrite ?dir_lookup_write_ne by done; done).
Qed.


(** A file created in the store, wherever the enumeration shows it, hides
    none of the files there were. *)
Lemma parsed_records_created slot name text w w' :
  absent name w ->
  metadata_dir w' = dir_write slot name text (metadata_dir w) ->
  parsed_records w' ≡ₚ
    parsed_records w ++
      (if is_data_file name then option_list (parse_record text) else []).
Proof.
  intros Habs Hdir. unfold parsed_records, data_files, absent in *.
  rewrite Hdir, (dir_write_absent _ _ _ _ Habs).
  assert (Hsplit : metadata_dir w = take slot (metadata_dir w) ++ drop slot (metadata_dir w))
    by (by rewrite take_drop).
  revert Hsplit. generalize (take slot (metadata_dir w)) (drop slot (metadata_dir w)).
  intros d1 d2 Hsplit. rewrite Hsplit in *. clear Hsplit Hdir.
  assert (Hold : forall n, n ∈ map fst (d1 ++ d2) ->
            dir_lookup n (d1 ++ (name, text) :: d2) = dir_lookup n (d1 ++ d2)).
  { intros n Hn. apply dir_lookup_insert_ne. intros <-.
    apply dir_lookup_names in Hn as [c Hc]. congruence. }
  assert (Hsame : forall l, (forall n, n ∈ l -> n ∈ map fst (d1 ++ d2)) ->
            omap (fun n => dir_lookup n (d1 ++ (name, text) :: d2) ≫= parse_record)
              (List.filter is_data_file l)
            = omap (fun n => dir_lookup n (d1 ++ d2) ≫= parse_record)
                (List.filter is_data_file l)).
  { intros l Hl. apply omap_ext_elem. intros n Hn.
    apply list_elem_of_In, filter_In in Hn as [Hn%list_elem_of_In _].
    by rewrite Hold by by apply Hl. }
  rewrite !map_app, !List.filter_app, !omap_app. simpl.
  rewrite (Hsame (map fst d1))
    by (intros n Hn; rewrite map_app; apply elem_of_app; by left).
  rewrite <- app_assoc. apply Permutation_app_head.
  assert (Hd2 : omap (fun n => dir_lookup n (d1 ++ (name, text) :: d2) ≫= parse_record)
                  (List.filter is_data_file (map fst d2))
                = omap (fun n => dir_lookup n (d1 ++ d2) ≫= parse_record)
                    (List.filter is_data_file (map fst d2)))
    by (apply Hsame; intros n Hn; rewrite map_app; apply elem_of_app; by right).
  destruct (is_data_file name); cbv iota.
  - match goal with
    | |- omap ?g (?n :: ?l) ≡ₚ _ =>
        change (omap g (n :: l))
          with (match g n with Some y => y :: omap g l | None => omap g l end)
    end.
    cbv beta. rewrite Hd2, dir_lookup_app.
    rewrite dir_lookup_app in Habs.
    destruct (dir_lookup name d1); [done|].
    simpl. rewrite String.eqb_refl. simpl.
    destruct (parse_record text) as [r|]; simpl; [|by rewrite app_nil_r].
    apply Permutation_cons_append.
  - by rewrite Hd2, app_nil_r.
Qed.

End MoreRuns.


(** ** Further properties of the handlers *)

Section Further.
Context {R : Runtime}.

(** X1.  The create handler answers 200 or 500 and nothing else, and it
    answers 200 only when a file was uploaded, the node accepted the
    connection and the attributes were read. *)
Theorem upload_answers_200_or_500 E file name description attributes w :
  (http_status (fst (upload_to_ipfs E file name description attributes w)) = 200 \/
   http_status (fst (upload_to_ipfs E file name description attributes w)) = 500) /\
  (http_status (fst (upload_to_ipfs E file name description attributes w)) = 200 ->
   is_Some file /\ ipfs_connect E = true /\ is_Some (read_attributes attributes)).
Proof.
  rewrite upload_to_ipfs_outline. unfold upload_outline, upload_finish_outline.
  destruct (read_attributes attributes) as [attrs|]; [|by split; [right|]].
  destruct (ipfs_connect E); [|by split; [right|]].
  destruct file as [f|];
    [destruct (write_error _ _); [by split; [right|]|];
     destruct (ipfs_add E (temp_file_of _ _) _) as [cid|]; [|by split; [right|]]|];
    (destruct (ipfs_add E (metadata_file_of _) _) as [mcid|]; simpl;
     [|by split; [right|]]).
  - split; [by left|]. eauto.
  - by split; [right|].
Qed.

(** X2.  A create request without a file whose metadata the node stores
    answers 500 and still leaves the data file of its id behind.  When
    [json.load] reads that document back, [get_nft] on the id answers 500,
    the listing skips the file, and the QR code of the id encodes [ipfs://]
    followed by the metadata identifier. *)
Theorem upload_without_file_leaves_unreadable_record
    E name description attributes attrs mcid w :
  read_attributes attributes = Some attrs ->
  ipfs_connect E = true ->
  ipfs_add E (metadata_file_of (uuid4 E))
    (json_dumps (JObj (metadata_without_file name description attrs))) = Some mcid ->
  json_loads (json_dumps (JObj (nft_data_doc (uuid4 E) None mcid
                                  (metadata_without_file name description attrs))))
    = Some (JObj (nft_data_doc (uuid4 E) None mcid
                    (metadata_without_file name description attrs))) ->
  exists w',
    upload_to_ipfs E None name description attributes w
      = (Raise (HTTPException 500 ("Error uploading to IPFS: " +:+ exn_str ValidationError)),
         w') /\
    stored w' (uuid4 E)
      (nft_data_doc (uuid4 E) None mcid (metadata_without_file name description attrs)) /\
    get_nft (uuid4 E) w'
      = (Raise (HTTPException 500 ("Error retrieving NFT: " +:+ exn_str ValidationError)),
         w') /\
    generate_qr_code (uuid4 E) w' = (qr_response ("ipfs://" +:+ mcid), w') /\
    (forall text, dir_lookup (data_file_of (uuid4 E)) (metadata_dir w') = Some text ->
       parse_record text = None).
Proof.
  intros Hattrs Hup Hadd Hcodec. rewrite upload_to_ipfs_outline.
  unfold upload_outline, upload_finish_outline. rewrite Hattrs, Hup, Hadd.
  eexists. split; [reflexivity|]. run.
  split; [eexists; split; [apply dir_lookup_write|exact Hcodec]|].
  rewrite get_nft_run, generate_qr_code_run. run. rewrite dir_lookup_write, Hcodec.
  rewrite validate_nft_data_doc. split; [done|]. split.
  - unfold qr_cid, dict_get, nft_data_doc. by simplify_map_eq.
  - intros text [= <-]. unfold parse_record. rewrite Hcodec. apply validate_nft_data_doc.
Qed.

(** X3.  On every exit of the create handler the log of the IPFS client
    has grown by nothing, or by one connection that was opened, used for
    [add] calls only, and closed. *)
Theorem upload_closes_its_connection E file name description attributes w :
  exists evs,
    ipfs_log (snd (upload_to_ipfs E file name description attributes w)) = ipfs_log w ++ evs /\
    client_session evs.
Proof.
  rewrite upload_to_ipfs_outline. unfold upload_outline, upload_finish_outline, client_session.
  destruct (read_attributes attributes) as [attrs|];
    [|exists []; by rewrite app_nil_r; split; [|left]].
  destruct (ipfs_connect E); [|exists []; by rewrite app_nil_r; split; [|left]].
  destruct file as [f|];
    [destruct (write_error _ _);
     [|destruct (ipfs_add E (temp_file_of _ _) _) as [cid|]]|];
    try destruct (ipfs_add E (metadata_file_of _) _) as [mcid|]; run;
    rewrite <- ?app_assoc; simpl;
    (eexists; split; [reflexivity|]; right).
  - by eexists [].
  - by eexists [_; _].
  - by eexists [_; _].
  - by eexists [_].
  - by eexists [_].
  - by eexists [_].
Qed.

(** X4.  Once the node has accepted the uploaded file, the temporary copy
    is gone from the upload folder when the handler ends, whether or not
    the rest of the request succeeds, and no other file of that folder has
    changed. *)
Theorem upload_removes_accepted_file E f name description attributes attrs cid w :
  read_attributes attributes = Some attrs ->
  ipfs_connect E = true ->
  ipfs_add E (temp_file_of (uuid4 E) f) (file_content f) = Some cid ->
  dir_lookup (temp_file_of (uuid4 E) f)
    (uploads_dir (snd (upload_to_ipfs E (Some f) name description attributes w))) = None /\
  (forall other, other <> temp_file_of (uuid4 E) f ->
     dir_lookup other
       (uploads_dir (snd (upload_to_ipfs E (Some f) name description attributes w)))
     = dir_lookup other (uploads_dir w)).
Proof.
  intros Hattrs Hup Hadd. rewrite upload_to_ipfs_outline.
  unfold upload_outline, upload_finish_outline. rewrite Hattrs, Hup, Hadd.
  destruct (write_error _ _) as [e|] eqn:Hwrite.
  { apply write_error_absent in Hwrite. by run. }
  destruct (ipfs_add E (metadata_file_of _) _) as [mcid|]; run;
    (split; [apply dir_lookup_remove|]);
    intros other Hother; by rewrite dir_lookup_remove_ne, dir_lookup_write_ne.
Qed.

(** X5.  When the temporary copy of the uploaded file can be written
    (its name has no slash and no NUL and at most 255 bytes) and the node
    refuses the file, the handler answers 500, the temporary copy stays in
    the upload folder, and the record store is untouched. *)
Theorem upload_leaves_refused_file E f name description attributes attrs w :
  read_attributes attributes = Some attrs ->
  ipfs_connect E = true ->
  creatable (temp_file_of (uuid4 E) f) = true ->
  ipfs_add E (temp_file_of (uuid4 E) f) (file_content f) = None ->
  exists w',
    upload_to_ipfs E (Some f) name description attributes w
      = (Raise (HTTPException 500 ("Error uploading to IPFS: " +:+ exn_str IPFSError)), w') /\
    dir_lookup (temp_file_of (uuid4 E) f) (uploads_dir w') = Some (file_content f) /\
    metadata_dir w' = metadata_dir w.
Proof.
  intros Hattrs Hup Hname Hadd. rewrite upload_to_ipfs_outline.
  unfold upload_outline. rewrite Hattrs, Hup, (write_error_creatable _ _ Hname), Hadd.
  eexists. split; [reflexivity|]. run. split; [apply dir_lookup_write|done].
Qed.

(** X6.  When the temporary copy of the uploaded file, if there is one,
    can be written and the node stores it, and the node refuses the
    metadata document, the handler answers 500, the document stays in the
    record store as the file of the id ending in [.json], and no data file
    is written: [get_nft] on the id answers 404 when the store had no data
    file of it. *)
Theorem upload_leaves_refused_metadata E file name description attributes attrs cid w :
  read_attributes attributes = Some attrs ->
  ipfs_connect E = true ->
  (forall f, file = Some f ->
     creatable (temp_file_of (uuid4 E) f) = true /\
     ipfs_add E (temp_file_of (uuid4 E) f) (file_content f) = Some cid) ->
  ipfs_add E (metadata_file_of (uuid4 E))
    (json_dumps (JObj (request_metadata name description attrs file cid))) = None ->
  exists w',
    upload_to_ipfs E file name description attributes w
      = (Raise (HTTPException 500 ("Error uploading to IPFS: " +:+ exn_str IPFSError)), w') /\
    dir_lookup (metadata_file_of (uuid4 E)) (metadata_dir w')
      = Some (json_dumps (JObj (request_metadata name description attrs file cid))) /\
    dir_lookup (data_file_of (uuid4 E)) (metadata_dir w')
      = dir_lookup (data_file_of (uuid4 E)) (metadata_dir w) /\
    (absent (data_file_of (uuid4 E)) w ->
       get_nft (uuid4 E) w' = (Raise (HTTPException 404 "NFT not found"), w')).
Proof.
  intros Hattrs Hup Hfile Hadd. rewrite upload_to_ipfs_outline.
  unfold upload_outline, upload_finish_outline, request_metadata in *.
  rewrite Hattrs, Hup.
  destruct file as [f|];
    [destruct (Hfile f eq_refl) as [Hname ->]; rewrite (write_error_creatable _ _ Hname)|];
    rewrite Hadd;
    (eexists; split; [reflexivity|]); run;
    (split; [apply dir_lookup_write|]);
    (assert (Hsame : forall slot d text,
               dir_lookup (data_file_of (uuid4 E))
                 (dir_write slot (metadata_file_of (uuid4 E)) text d)
               = dir_lookup (data_file_of (uuid4 E)) d)
       by (intros; apply dir_lookup_write_ne, metadata_file_ne_data_file));
    (split; [apply Hsame|]);
    intros Habs; rewrite get_nft_run; run; by rewrite Hsame, Habs, data_file_stat.
Qed.


(** X7.  A create request, whatever its outcome, leaves the data file of
    every other id as it was, and with it the answers of [get_nft] and of
    both QR handlers for that id.  The other id differs from the id drawn,
    and the id drawn is not the other id followed by [_data]. *)
Theorem upload_keeps_other_records E file name description attributes w nft_id gateway :
  nft_id <> uuid4 E ->
  uuid4 E <> nft_id +:+ "_data" ->
  dir_lookup (data_file_of nft_id)
    (metadata_dir (snd (upload_to_ipfs E file name description attributes w)))
    = dir_lookup (data_file_of nft_id) (metadata_dir w) /\
  fst (get_nft nft_id (snd (upload_to_ipfs E file name description attributes w)))
    = fst (get_nft nft_id w) /\
  fst (generate_qr_code nft_id (snd (upload_to_ipfs E file name description attributes w)))
    = fst (generate_qr_code nft_id w) /\
  fst (generate_gateway_qr_code nft_id gateway
         (snd (upload_to_ipfs E file name description attributes w)))
    = fst (generate_gateway_qr_code nft_id gateway w).
Proof.
  intros Hid Hsuffix.
  assert (Hsame : dir_lookup (data_file_of nft_id)
            (metadata_dir (snd (upload_to_ipfs E file name description attributes w)))
          = dir_lookup (data_file_of nft_id) (metadata_dir w)).
  { apply upload_metadata_dir_other.
    - intros H%data_file_is_metadata_file. done.
    - intros H%data_file_of_inj. done. }
  split; [exact Hsame|].
  rewrite !get_nft_run, !generate_qr_code_run, !generate_gateway_qr_code_run. simpl.
  by rewrite Hsame.
Qed.


(** A record that [get_nft] returns is among the parseable records. *)
Lemma get_nft_parsed nft_id w r w1 :
  get_nft nft_id w = (Return r, w1) -> r ∈ parsed_records w.
Proof.
  rewrite get_nft_run. intros H.
  destruct (dir_lookup (data_file_of nft_id) (metadata_dir w)) as [text|] eqn:Hfile;
    [|by destruct (stat_error _)].
  unfold parsed_records. apply list_elem_of_omap. exists (data_file_of nft_id). split.
  - unfold data_files. apply list_elem_of_In, filter_In. split.
    + apply list_elem_of_In, dir_lookup_names. by eexists.
    + apply is_data_file_data_file_of.
  - rewrite Hfile. simpl. unfold parse_record.
    destruct (json_loads text) as [[| | | | | |d]|]; try by simplify_eq.
    destruct (NFTResponse_validate d); by simplify_eq.
Qed.

(** A listing that answers lists the parseable records, in some order. *)
Lemma list_all_nfts_perm w resp w' :
  list_all_nfts w = (Return resp, w') -> nfts resp ≡ₚ parsed_records w.
Proof.
  rewrite list_all_nfts_run.
  destruct (sort_reverse name_key (parsed_records w)) as [sorted|] eqn:Hsort; [|done].
  intros [= <- _]. simpl. by apply sort_reverse_perm in Hsort.
Qed.

(** X8.  A record that [get_nft] returns is one of the parseable
    records, and every listing that answers contains it. *)
Theorem get_nft_record_is_listed nft_id w r w1 :
  get_nft nft_id w = (Return r, w1) ->
  r ∈ parsed_records w /\
  (forall resp w2, list_all_nfts w = (Return resp, w2) -> r ∈ nfts resp).
Proof.
  intros Hget. pose proof (get_nft_parsed _ _ _ _ Hget) as Hin.
  split; [done|]. intros resp w2 Hlist.
  by rewrite (list_all_nfts_perm _ _ _ Hlist).
Qed.

(** X9.  After a create request that succeeded with the record [r]
    (whose document [json.load] reads back), every listing that answers
    contains [r].  When the store held neither file of the id before and
    the metadata document is no data file, the parseable records are those
    of before and [r], wherever the enumeration shows the new file. *)
Theorem upload_appends_record E file name description attributes w r w' :
  upload_to_ipfs E file name description attributes w = (Return r, w') ->
  json_loads (json_dumps (JObj (record_doc r))) = Some (JObj (record_doc r)) ->
  (forall resp w2, list_all_nfts w' = (Return resp, w2) -> r ∈ nfts resp) /\
  (absent (metadata_file_of (uuid4 E)) w ->
   absent (data_file_of (uuid4 E)) w ->
   is_data_file (metadata_file_of (uuid4 E)) = false ->
   parsed_records w' ≡ₚ r :: parsed_records w).
Proof.
  intros Hrun Hcodec.
  rewrite upload_to_ipfs_outline in Hrun.
  unfold upload_outline, upload_finish_outline in Hrun.
  destruct (read_attributes attributes) as [attrs|]; [|done].
  destruct (ipfs_connect E); [|done].
  destruct file as [f|]; [|by destruct (ipfs_add E (metadata_file_of _) _)].
  destruct (write_error _ _); [done|].
  destruct (ipfs_add E (temp_file_of _ _) _) as [cid|]; [|done].
  destruct (ipfs_add E (metadata_file_of _) _) as [mcid|]; [|done].
  injection Hrun as Hr Hw.
  assert (Hdoc : nft_data_doc (uuid4 E) (Some cid) mcid
                   (metadata_with_file name description attrs f cid) = record_doc r)
    by (by rewrite <- Hr).
  rewrite Hdoc in Hw.
  assert (Hparse : parse_record (json_dumps (JObj (record_doc r))) = Some r).
  { unfold parse_record. rewrite Hcodec. unfold record_doc.
    rewrite validate_nft_data_doc. by destruct r. }
  split.
  - intros resp w2 Hlist. rewrite (list_all_nfts_perm _ _ _ Hlist).
    unfold parsed_records. apply list_elem_of_omap. exists (data_file_of (uuid4 E)).
    rewrite <- Hw. run. split.
    + unfold data_files. run. apply list_elem_of_In, filter_In. split.
      * apply list_elem_of_In, dir_lookup_names. rewrite dir_lookup_write. by eexists.
      * apply is_data_file_data_file_of.
    + by rewrite dir_lookup_write.
  - intros Hm Hd Hnot. subst w'.
    set (mtext := json_dumps (JObj (metadata_with_file name description attrs f cid))).
    set (w1 := set_metadata_dir
                 (dir_write (slot_of E (metadata_file_of (uuid4 E)))
                    (metadata_file_of (uuid4 E)) mtext) w).
    assert (Hd1 : absent (data_file_of (uuid4 E)) w1).
    { unfold absent, w1 in *. run.
      by rewrite dir_lookup_write_ne by apply metadata_file_ne_data_file. }
    rewrite (parsed_records_created (slot_of E (data_file_of (uuid4 E)))
               (data_file_of (uuid4 E)) (json_dumps (JObj (record_doc r))) w1 _ Hd1)
      by done.
    rewrite is_data_file_data_file_of, Hparse. simpl.
    rewrite (parsed_records_created (slot_of E (metadata_file_of (uuid4 E)))
               (metadata_file_of (uuid4 E)) mtext w w1 Hm) by done.
    rewrite Hnot, app_nil_r. symmetry. apply Permutation_cons_append.
Qed.

(** X10.  A store none of whose data files parses and validates (an
    empty store among them) is listed as the empty list with [total_count]
    0, not as an error. *)
Theorem listing_without_records_is_empty w :
  (forall name text,
     is_data_file name = true ->
     dir_lookup name (metadata_dir w) = Some text ->
     parse_record text = None) ->
  list_all_nfts w = (Return {| nfts := []; total_count := 0 |}, w).
Proof.
  intros Hnone. rewrite list_all_nfts_run.
  assert (Hempty : parsed_records w = []); [|by rewrite Hempty].
  destruct (parsed_records w) as [|r l] eqn:Hrecords; [done|].
  assert (Hr : r ∈ parsed_records w) by (rewrite Hrecords; left).
  unfold parsed_records, data_files in Hr.
  apply list_elem_of_omap in Hr as (name & Hname & Hparse).
  apply list_elem_of_In, filter_In in Hname as [_ Hdata].
  destruct (dir_lookup name (metadata_dir w)) as [text|] eqn:Hfile; [|done].
  simpl in Hparse. by rewrite (Hnone name text Hdata Hfile) in Hparse.
Qed.

(** X11.  When the data file of an id holds JSON that is no object,
    [get_nft] answers the 500 that wraps [TypeError]; when it holds an
    object in which one of the four fields of [NFTResponse] is missing or
    null, [get_nft] answers the 500 that wraps the validation error and the
    listing skips the file. *)
Theorem get_nft_rejects_other_documents nft_id w text :
  dir_lookup (data_file_of nft_id) (metadata_dir w) = Some text ->
  (forall v, json_loads text = Some v -> (forall d, v <> JObj d) ->
     get_nft nft_id w
       = (Raise (HTTPException 500 ("Error retrieving NFT: " +:+ exn_str TypeError)), w)) /\
  (forall d key,
     json_loads text = Some (JObj d) ->
     key ∈ ["nft_id"; "content_cid"; "metadata_cid"; "metadata"] ->
     missing_or_null d key ->
     get_nft nft_id w
       = (Raise (HTTPException 500 ("Error retrieving NFT: " +:+ exn_str ValidationError)),
          w) /\
     parse_record text = None).
Proof.
  intros Hfile. rewrite get_nft_run, Hfile. split.
  - intros v -> Hv. destruct v as [| | | | | |d]; try done. by destruct (Hv d).
  - intros d key Hd Hkey Hmissing. unfold parse_record. rewrite Hd.
    assert (Hinvalid : NFTResponse_validate d = None); [|by rewrite Hinvalid].
    unfold NFTResponse_validate, missing_or_null in *.
    repeat (apply elem_of_cons in Hkey as [->|Hkey]);
      [| | | |by apply elem_of_nil in Hkey].
    all: destruct Hmissing as [Hm|Hm].
    all: repeat (rewrite ?Hm; simpl; try done;
           match goal with
           | |- context [pyd_str ?v] => destruct (pyd_str v); simpl; try done
           | |- context [?m !! ?k] =>
               destruct (m !! k) as [?|] eqn:?; simpl; try done; try congruence
           end).
Qed.

(** X12.  For an id whose data file name is at most 255 bytes long,
    both QR handlers answer 404 exactly when the store has no data file of
    the id.  For an id without a data file whose data file name is longer
    (and holds no NUL), [exists] raises and both answer the 500 that wraps
    the [OSError].  When the file is not JSON they answer the 500 that
    wraps the decode error, and when it holds JSON that is no object the
    500 that wraps [AttributeError]. *)
Theorem qr_codes_error_mapping nft_id gateway w :
  ((String.length (data_file_of nft_id) <= 255)%nat ->
   (http_status (fst (generate_qr_code nft_id w)) = 404 <-> absent (data_file_of nft_id) w) /\
   (http_status (fst (generate_gateway_qr_code nft_id gateway w)) = 404 <->
      absent (data_file_of nft_id) w)) /\
  ((255 < String.length (data_file_of nft_id))%nat ->
   has_char nul (data_file_of nft_id) = false ->
   absent (data_file_of nft_id) w ->
   fst (generate_qr_code nft_id w)
     = Raise (HTTPException 500 ("Error generating QR code: " +:+ exn_str OSError)) /\
   fst (generate_gateway_qr_code nft_id gateway w)
     = Raise (HTTPException 500 ("Error generating QR code: " +:+ exn_str OSError))) /\
  (forall text,
     dir_lookup (data_file_of nft_id) (metadata_dir w) = Some text ->
     (json_loads text = None ->
        fst (generate_qr_code nft_id w)
          = Raise (HTTPException 500
                     ("Error generating QR code: " +:+ exn_str JSONDecodeError)) /\
        fst (generate_gateway_qr_code nft_id gateway w)
          = Raise (HTTPException 500
                     ("Error generating QR code: " +:+ exn_str JSONDecodeError))) /\
     (forall v, json_loads text = Some v -> (forall d, v <> JObj d) ->
        fst (generate_qr_code nft_id w)
          = Raise (HTTPException 500
                     ("Error generating QR code: " +:+ exn_str AttributeError)) /\
        fst (generate_gateway_qr_code nft_id gateway w)
          = Raise (HTTPException 500
                     ("Error generating QR code: " +:+ exn_str AttributeError)))).
Proof.
  rewrite generate_qr_code_run, generate_gateway_qr_code_run. unfold absent, qr_response.
  split; [|split].
  - intros Hlen. rewrite (stat_error_short _ Hlen).
    destruct (dir_lookup (data_file_of nft_id) (metadata_dir w)) as [text|]; simpl; [|done].
    split; (split; [|done]);
      (destruct (json_loads text) as [[| | | | | |d]|]; simpl; try done);
      by destruct (qrcode_png _).
  - intros Hlen Hnul ->. unfold stat_error, name_too_long, NAME_MAX. rewrite Hnul.
    by destruct (Nat.ltb_spec 255 (String.length (data_file_of nft_id))); [|lia].
  - intros text ->. simpl. split; [by intros ->|].
    intros v -> Hv. destruct v as [| | | | | |d]; try done. by destruct (Hv d).
Qed.

(** X13.  For a stored document whose [content_cid] is falsy (missing,
    null, the empty string, zero, false, an empty list or dict) both QR
    handlers encode the [metadata_cid]. *)
Theorem qr_falls_back_when_content_cid_is_falsy nft_id gateway w d m :
  stored w nft_id d ->
  truthy (dict_get "content_cid" d) = false ->
  d !! "metadata_cid" = Some (JStr m) ->
  generate_qr_code nft_id w = (qr_response ("ipfs://" +:+ m), w) /\
  generate_gateway_qr_code nft_id gateway w
    = (qr_response ("https://" +:+ gateway +:+ "/ipfs/" +:+ m), w).
Proof.
  intros (text & Hfile & Hd) Hfalsy Hm.
  rewrite generate_qr_code_run, generate_gateway_qr_code_run, Hfile, Hd.
  unfold qr_cid. rewrite Hfalsy. unfold dict_get. by rewrite Hm.
Qed.

(** X14.  [health_check] always returns, with status [ok] and [ipfs] set
    to [connected] exactly when the connection succeeded; a connection it
    opened is closed again, and the upload folder is untouched. *)
Theorem health_check_reports_connection E w :
  fst (health_check E w)
    = Return (<["ipfs" := JStr (if ipfs_connect E then "connected" else "disconnected")]>
                (<["status" := JStr "ok"]> ∅)) /\
  ipfs_log (snd (health_check E w))
    = ipfs_log w ++ (if ipfs_connect E then [Connected; Closed] else []) /\
  uploads_dir (snd (health_check E w)) = uploads_dir w.
Proof.
  unfold health_check. unfold_monad.
  destruct (ipfs_connect E); simpl; rewrite <- ?app_assoc, ?app_nil_r; done.
Qed.

(** X15.  The listing either answers with a permutation of the parseable
    records and their number as [total_count], or answers the 500 that
    wraps [TypeError], and then some parseable record has a name that is
    not a string.  The world is unchanged in both cases. *)
Theorem listing_outcome w :
  (exists resp,
     list_all_nfts w = (Return resp, w) /\
     nfts resp ≡ₚ parsed_records w /\
     total_count resp = Z.of_nat (length (parsed_records w))) \/
  (list_all_nfts w
     = (Raise (HTTPException 500 ("Error listing NFTs: " +:+ exn_str TypeError)), w) /\
   ~ string_names (parsed_records w)).
Proof.
  rewrite list_all_nfts_run.
  destruct (sort_reverse name_key (parsed_records w)) as [sorted|] eqn:Hsort.
  - left. eexists. split; [reflexivity|]. simpl.
    split; [by apply sort_reverse_perm in Hsort|].
    by rewrite (sort_reverse_length _ _ _ Hsort).
  - right. split; [done|]. intros Hnames.
    destruct (sort_reverse_strings name_key name_str (parsed_records w))
      as (sorted & Hsorted & _); [|congruence].
    unfold string_names in Hnames. rewrite forallb_forall in Hnames.
    apply List.Forall_forall. intros r Hr. specialize (Hnames r Hr).
    unfold string_named, name_key, name_str in *.
    destruct (metadata r !! "name") as [[]|]; done.
Qed.

(** X16.  A successful create request returns the id drawn for it and
    metadata holding the given name and description and the attributes
    read from the form (the empty list when the field is missing or
    empty).  Afterwards the metadata document of the id holds the dump of
    that metadata, the record's [metadata_cid] is what the node returned
    for it, and the data file holds the dump of the record's document. *)
Theorem upload_success_record E file name description attributes w r w' :
  upload_to_ipfs E file name description attributes w = (Return r, w') ->
  nft_id r = uuid4 E /\
  metadata r !! "name" = Some (JStr name) /\
  metadata r !! "description" = Some (JStr description) /\
  (exists attrs,
     read_attributes attributes = Some attrs /\ metadata r !! "attributes" = Some attrs) /\
  (attributes = None \/ attributes = Some "" ->
     metadata r !! "attributes" = Some (JArr [])) /\
  dir_lookup (metadata_file_of (uuid4 E)) (metadata_dir w')
    = Some (json_dumps (JObj (metadata r))) /\
  ipfs_add E (metadata_file_of (uuid4 E)) (json_dumps (JObj (metadata r)))
    = Some (metadata_cid r) /\
  dir_lookup (data_file_of (uuid4 E)) (metadata_dir w')
    = Some (json_dumps (JObj (record_doc r))).
Proof.
  intros Hrun. rewrite upload_to_ipfs_outline in Hrun.
  unfold upload_outline, upload_finish_outline in Hrun.
  destruct (read_attributes attributes) as [attrs|] eqn:Hattrs; [|done].
  destruct (ipfs_connect E); [|done].
  destruct file as [f|]; [|by destruct (ipfs_add E (metadata_file_of _) _)].
  destruct (write_error _ _); [done|].
  destruct (ipfs_add E (temp_file_of _ _) _) as [cid|]; [|done].
  destruct (ipfs_add E (metadata_file_of _) _) as [mcid|] eqn:Hadd; [|done].
  injection Hrun as <- <-. run. unfold metadata_with_file.
  split; [done|]. split; [by simplify_map_eq|]. split; [by simplify_map_eq|].
  split; [exists attrs; by simplify_map_eq|].
  split.
  { intros [->| ->]; simpl in Hattrs; simplify_eq; by simplify_map_eq. }
  split.
  { rewrite dir_lookup_write_ne by apply not_eq_sym, metadata_file_ne_data_file.
    apply dir_lookup_write. }
  split; [exact Hadd|]. apply dir_lookup_write.
Qed.


End Further.


(** ** The further properties at work *)

Section FurtherExamples.
Import Fixture.

(** X2 at a request without a file made in the empty world. *)
Lemma upload_without_file_witness :
  read_attributes None = Some (JArr []) /\
  ipfs_connect (node_up "id-2") = true /\
  ipfs_add (node_up "id-2") (metadata_file_of "id-2")
    (json_dumps (JObj (metadata_without_file "Art2" "d" (JArr [])))) = Some "QmMeta" /\
  json_loads (json_dumps (JObj doc_art2)) = Some (JObj doc_art2) /\
  exists w',
    upload_to_ipfs (node_up "id-2") None "Art2" "d" None empty_world
      = (Raise (HTTPException 500 ("Error uploading to IPFS: " +:+ exn_str ValidationError)),
         w') /\
    stored w' "id-2" doc_art2 /\
    get_nft "id-2" w'
      = (Raise (HTTPException 500 ("Error retrieving NFT: " +:+ exn_str ValidationError)),
         w') /\
    generate_qr_code "id-2" w' = (qr_response ("ipfs://" +:+ "QmMeta"), w') /\
    (forall text, dir_lookup (data_file_of "id-2") (metadata_dir w') = Some text ->
       parse_record text = None).
Proof.
  do 4 (split; [reflexivity|]).
  exact (upload_without_file_leaves_unreadable_record (node_up "id-2") "Art2" "d" None
           (JArr []) "QmMeta" empty_world eq_refl eq_refl eq_refl eq_refl).
Defined.

(** X4 at the request that creates [Art1] in the empty world. *)
Lemma upload_removes_accepted_file_witness :
  read_attributes (Some "[]") = Some (JArr []) /\
  ipfs_connect (node_up "id-1") = true /\
  ipfs_add (node_up "id-1") (temp_file_of "id-1" png_file) (file_content png_file)
    = Some "QmFile" /\
  dir_lookup (temp_file_of "id-1" png_file)
    (uploads_dir (snd (upload_to_ipfs (node_up "id-1") (Some png_file) "Art1" "d"
                         (Some "[]") empty_world))) = None /\
  (forall other, other <> temp_file_of "id-1" png_file ->
     dir_lookup other
       (uploads_dir (snd (upload_to_ipfs (node_up "id-1") (Some png_file) "Art1" "d"
                            (Some "[]") empty_world)))
     = dir_lookup other (uploads_dir empty_world)).
Proof.
  do 3 (split; [reflexivity|]).
  exact (upload_removes_accepted_file (node_up "id-1") png_file "Art1" "d" (Some "[]")
           (JArr []) "QmFile" empty_world eq_refl eq_refl eq_refl).
Defined.

(** X5 at a node that refuses uploaded files. *)
Lemma upload_leaves_refused_file_witness :
  read_attributes (Some "[]") = Some (JArr []) /\
  ipfs_connect (Scenes.node_refusing_files "id-1") = true /\
  creatable (temp_file_of "id-1" png_file) = true /\
  ipfs_add (Scenes.node_refusing_files "id-1") (temp_file_of "id-1" png_file)
    (file_content png_file) = None /\
  upload_to_ipfs (Scenes.node_refusing_files "id-1") (Some png_file) "Art1" "d" (Some "[]")
    empty_world
    = (Raise (HTTPException 500 "Error uploading to IPFS: IPFSError"),
       Scenes.after_refused_file) /\
  exists w',
    upload_to_ipfs (Scenes.node_refusing_files "id-1") (Some png_file) "Art1" "d" (Some "[]")
      empty_world
      = (Raise (HTTPException 500 ("Error uploading to IPFS: " +:+ exn_str IPFSError)), w') /\
    dir_lookup (temp_file_of "id-1" png_file) (uploads_dir w') = Some (file_content png_file) /\
    metadata_dir w' = metadata_dir empty_world.
Proof.
  do 5 (split; [reflexivity|]).
  exact (upload_leaves_refused_file (Scenes.node_refusing_files "id-1") png_file "Art1" "d"
           (Some "[]") (JArr []) empty_world eq_refl eq_refl eq_refl eq_refl).
Defined.

(** X6 at a node that refuses metadata documents. *)
Lemma upload_leaves_refused_metadata_witness :
  creatable (temp_file_of "id-1" png_file) = true /\
  upload_to_ipfs (Scenes.node_refusing_metadata "id-1") (Some png_file) "Art1" "d" (Some "[]")
    empty_world
    = (Raise (HTTPException 500 "Error uploading to IPFS: IPFSError"),
       Scenes.after_refused_metadata) /\
  exists w',
    upload_to_ipfs (Scenes.node_refusing_metadata "id-1") (Some png_file) "Art1" "d"
      (Some "[]") empty_world
      = (Raise (HTTPException 500 ("Error uploading to IPFS: " +:+ exn_str IPFSError)), w') /\
    dir_lookup (metadata_file_of "id-1") (metadata_dir w')
      = Some (json_dumps (JObj (request_metadata "Art1" "d" (JArr []) (Some png_file)
                                  "QmFile"))) /\
    dir_lookup (data_file_of "id-1") (metadata_dir w')
      = dir_lookup (data_file_of "id-1") (metadata_dir empty_world) /\
    (absent (data_file_of "id-1") empty_world ->
       get_nft "id-1" w' = (Raise (HTTPException 404 "NFT not found"), w')).
Proof.
  do 2 (split; [reflexivity|]).
  refine (upload_leaves_refused_metadata (Scenes.node_refusing_metadata "id-1")
            (Some png_file) "Art1" "d" (Some "[]") (JArr []) "QmFile" empty_world
            eq_refl eq_refl _ eq_refl).
  intros f [= <-]. split; reflexivity.
Defined.


(** X7: creating [Art1] leaves the answer for [Art0] as it was. *)
Lemma upload_keeps_other_records_witness :
  "id-0" <> "id-1" /\
  "id-1" <> "id-0" +:+ "_data" /\
  get_nft "id-0" Scenes.art0_only = (Return record_art0, Scenes.art0_only) /\
  fst (get_nft "id-0"
         (snd (upload_to_ipfs (node_up "id-1") (Some png_file) "Art1" "d" (Some "[]")
                 Scenes.art0_only)))
    = fst (get_nft "id-0" Scenes.art0_only).
Proof.
  assert (H1 : "id-0" <> "id-1") by discriminate.
  assert (H2 : "id-1" <> "id-0" +:+ "_data") by discriminate.
  split; [exact H1|]. split; [exact H2|]. split; [vm_compute; reflexivity|].
  exact (proj1 (proj2 (upload_keeps_other_records (node_up "id-1") (Some png_file) "Art1"
                         "d" (Some "[]") Scenes.art0_only "id-0" "ipfs.io"
                         (fun H => H1 H) H2))).
Defined.

(** X8 at the gallery and the record [Art1]. *)
Lemma get_nft_record_is_listed_witness :
  get_nft "id-1" gallery = (Return record_art1, gallery) /\
  record_art1 ∈ parsed_records gallery /\
  (forall resp w2, list_all_nfts gallery = (Return resp, w2) -> record_art1 ∈ nfts resp).
Proof.
  assert (Hget : get_nft "id-1" gallery = (Return record_art1, gallery))
    by (vm_compute; reflexivity).
  split; [exact Hget|].
  exact (get_nft_record_is_listed "id-1" gallery record_art1 gallery Hget).
Defined.

(** X9: creating [Art1] in the store that holds [Art0] only, on a system
    that enumerates new files first. *)
Lemma upload_appends_record_witness :
  upload_to_ipfs (Scenes.node_up_new_first "id-1") (Some png_file) "Art1" "d" (Some "[]")
    Scenes.art0_only
    = (Return record_art1, Scenes.art1_before_art0) /\
  json_loads (json_dumps (JObj (record_doc record_art1))) = Some (JObj (record_doc record_art1)) /\
  absent (metadata_file_of "id-1") Scenes.art0_only /\
  absent (data_file_of "id-1") Scenes.art0_only /\
  is_data_file (metadata_file_of "id-1") = false /\
  parsed_records Scenes.art0_only = [record_art0] /\
  parsed_records Scenes.art1_before_art0 = [record_art1; record_art0] /\
  (forall resp w2,
     list_all_nfts Scenes.art1_before_art0 = (Return resp, w2) -> record_art1 ∈ nfts resp) /\
  parsed_records Scenes.art1_before_art0 ≡ₚ record_art1 :: parsed_records Scenes.art0_only.
Proof.
  assert (Hrun : upload_to_ipfs (Scenes.node_up_new_first "id-1") (Some png_file) "Art1" "d"
                   (Some "[]") Scenes.art0_only
                 = (Return record_art1, Scenes.art1_before_art0))
    by (vm_compute; reflexivity).
  assert (Hcodec : json_loads (json_dumps (JObj (record_doc record_art1)))
                   = Some (JObj (record_doc record_art1)))
    by (vm_compute; reflexivity).
  split; [exact Hrun|]. split; [exact Hcodec|].
  do 3 (split; [reflexivity|]).
  split; [vm_compute; reflexivity|]. split; [vm_compute; reflexivity|].
  destruct (upload_appends_record _ _ _ _ _ _ _ _ Hrun Hcodec) as [Hlisted Hrecords].
  split; [exact Hlisted|].
  exact (Hrecords eq_refl eq_refl eq_refl).
Defined.

(** No file of the store [junk] is a record. *)
Lemma junk_has_no_record name text :
  is_data_file name = true ->
  dir_lookup name (metadata_dir Scenes.junk) = Some text ->
  parse_record text = None.
Proof.
  intros _. unfold Scenes.junk, metadata_dir, dir_lookup.
  destruct (String.eqb "id-0.json" name); [by intros [= <-]|].
  destruct (String.eqb "broken_data.json" name); [by intros [= <-]|].
  destruct (String.eqb "list_data.json" name); [by intros [= <-]|done].
Defined.

(** X10 at the store [junk]. *)
Lemma listing_without_records_witness :
  list_all_nfts Scenes.junk = (Return {| nfts := []; total_count := 0 |}, Scenes.junk).
Proof. exact (listing_without_records_is_empty Scenes.junk junk_has_no_record). Defined.

(** X11 at a data file that holds a list, and at the document written
    without a file, whose [content_cid] is null. *)
Lemma get_nft_rejects_other_documents_witness :
  get_nft "list" Scenes.junk
    = (Raise (HTTPException 500 "Error retrieving NFT: TypeError"), Scenes.junk) /\
  get_nft "id-2" gallery
    = (Raise (HTTPException 500 "Error retrieving NFT: ValidationError"), gallery).
Proof.
  split.
  - refine (proj1 (get_nft_rejects_other_documents "list" Scenes.junk "[]" eq_refl)
              (JArr []) eq_refl _).
    intros d. discriminate.
  - refine (proj1 (proj2 (get_nft_rejects_other_documents "id-2" gallery "record id-2"
                            eq_refl) doc_art2 "content_cid" eq_refl _ _)).
    + right. left.
    + right. reflexivity.
Defined.

(** X12 at the gallery: an id that is not stored, an id whose data file
    name is too long, and the broken file. *)
Lemma qr_codes_error_mapping_witness :
  (String.length (data_file_of "id-9") <= 255)%nat /\
  absent (data_file_of "id-9") gallery /\
  (255 < String.length (data_file_of Scenes.long_id))%nat /\
  has_char nul (data_file_of Scenes.long_id) = false /\
  absent (data_file_of Scenes.long_id) gallery /\
  dir_lookup (data_file_of "broken") (metadata_dir gallery) = Some "{bad" /\
  json_loads "{bad" = None /\
  http_status (fst (generate_qr_code "id-9" gallery)) = 404 /\
  fst (generate_gateway_qr_code Scenes.long_id "ipfs.io" gallery)
    = Raise (HTTPException 500 "Error generating QR code: OSError") /\
  fst (generate_qr_code "broken" gallery)
    = Raise (HTTPException 500 "Error generating QR code: JSONDecodeError").
Proof.
  assert (Hshort : (String.length (data_file_of "id-9") <= 255)%nat) by (vm_compute; lia).
  assert (Hlong : (255 < String.length (data_file_of Scenes.long_id))%nat)
    by (vm_compute; lia).
  assert (Hnul : has_char nul (data_file_of Scenes.long_id) = false)
    by (vm_compute; reflexivity).
  assert (Habs : absent (data_file_of Scenes.long_id) gallery) by (vm_compute; reflexivity).
  split; [exact Hshort|]. split; [reflexivity|]. split; [exact Hlong|].
  split; [exact Hnul|]. split; [exact Habs|]. do 2 (split; [reflexivity|]).
  destruct (qr_codes_error_mapping "id-9" "ipfs.io" gallery) as (Hmissing & _ & _).
  destruct (qr_codes_error_mapping Scenes.long_id "ipfs.io" gallery) as (_ & Htoo_long & _).
  destruct (qr_codes_error_mapping "broken" "ipfs.io" gallery) as (_ & _ & Hbroken).
  split; [apply (proj1 (Hmissing Hshort)); reflexivity|].
  split; [exact (proj2 (Htoo_long Hlong Hnul Habs))|].
  exact (proj1 (proj1 (Hbroken "{bad" eq_refl) eq_refl)).
Defined.

(** X13 at a record whose [content_cid] is the empty string. *)
Lemma qr_falls_back_witness :
  stored (R := Scenes.runtime) Scenes.blank_cid_store "id-6"
    (record_doc Scenes.record_blank_cid) /\
  truthy (dict_get "content_cid" (record_doc Scenes.record_blank_cid)) = false /\
  generate_qr_code (R := Scenes.runtime) "id-6" Scenes.blank_cid_store
    = (Return {| body := "PNG of ipfs://QmBlankMeta"; media_type := "image/png" |},
       Scenes.blank_cid_store).
Proof.
  assert (Hstored : stored (R := Scenes.runtime) Scenes.blank_cid_store "id-6"
                      (record_doc Scenes.record_blank_cid))
    by (exists "record id-6"; split; reflexivity).
  split; [exact Hstored|]. split; [reflexivity|].
  exact (proj1 (qr_falls_back_when_content_cid_is_falsy (R := Scenes.runtime) "id-6"
                  "ipfs.io" Scenes.blank_cid_store (record_doc Scenes.record_blank_cid)
                  "QmBlankMeta" Hstored eq_refl eq_refl)).
Defined.

(** X16 at the request that creates [Art1] without attributes. *)
Lemma upload_success_record_witness :
  upload_to_ipfs (node_up "id-1") (Some png_file) "Art1" "d" None empty_world
    = (Return record_art1, after_art1) /\
  metadata record_art1 !! "name" = Some (JStr "Art1") /\
  metadata record_art1 !! "attributes" = Some (JArr []) /\
  ipfs_add (node_up "id-1") (metadata_file_of "id-1")
    (json_dumps (JObj (metadata record_art1))) = Some (metadata_cid record_art1).
Proof.
  assert (Hrun : upload_to_ipfs (node_up "id-1") (Some png_file) "Art1" "d" None
                   empty_world = (Return record_art1, after_art1))
    by (vm_compute; reflexivity).
  split; [exact Hrun|].
  destruct (upload_success_record _ _ _ _ _ _ _ _ Hrun)
    as (_ & Hname & _ & _ & Hdefault & _ & Hcid & _).
  split; [exact Hname|]. split; [exact (Hdefault (or_introl eq_refl))|exact Hcid].
Defined.


End FurtherExamples.
